(** * Gap analysis and rule-based requirement extraction

    A shallow embedding of [backend/app/services/gap_analyzer.py] and of the
    rule-based path of [backend/app/services/job_analyzer.py], with the parts
    of the Python runtime they call ([str] methods, [re], [difflib]).

    Conventions.
    - A Python [str] is a [string]; a character is a code point below 256
      (the [ascii] type read as Latin-1).  The character classes and the case
      mapping below are the ones CPython uses on that range.
    - Python [int] is [Z] ([int(s)] keeps the limit of 4300 digits of
      CPython 3.11); the two [float] values the services compute are
      quotients of two small integers and are kept as exact rationals [Q].
    - A [dict] read through [.get] is a record of optional fields, [None]
      standing for an absent key.
    - [raise] is the [Raise] constructor of a result type. *)

From Stdlib Require Import Bool Ascii String List ZArith NArith QArith Lia.
From Stdlib Require Import Permutation Sorted.
From Stdlib Require Import Numbers.DecimalString.
Import ListNotations.

Local Open Scope string_scope.
Local Open Scope bool_scope.

(* ------------------------------------------------------------------ *)
(** ** Python [str] on code points 0..255 *)

Module PyStr.

Definition code (c : ascii) : N := N_of_ascii c.

Definition between (lo hi : N) (c : ascii) : bool :=
  ((lo <=? code c) && (code c <=? hi))%N.

(** [str.isspace] on one character; also what [\s] matches and what
    [str.strip] removes. *)
Definition isspace (c : ascii) : bool :=
  between 9 13 c || between 28 32 c || (code c =? 133)%N || (code c =? 160)%N.

(** [\d] of [re] on [str] patterns: the decimal digits. *)
Definition isdigit (c : ascii) : bool := between 48 57 c.

Definition isupper_ascii (c : ascii) : bool := between 65 90 c.
Definition islower_ascii (c : ascii) : bool := between 97 122 c.

(** [\w] of [re] on [str] patterns: alphanumeric characters and the
    underscore. *)
Definition isword (c : ascii) : bool :=
  isdigit c || isupper_ascii c || islower_ascii c || (code c =? 95)%N
  || (code c =? 170)%N || (code c =? 178)%N || (code c =? 179)%N
  || (code c =? 181)%N || (code c =? 185)%N || (code c =? 186)%N
  || between 188 190 c || between 192 214 c || between 216 246 c
  || between 248 255 c.

Definition lower_char (c : ascii) : ascii :=
  if isupper_ascii c || between 192 214 c || between 216 222 c
  then ascii_of_N (code c + 32) else c.

(** [str.upper] restricted to the ASCII letters; the services call
    [upper] and [title] on their own ASCII vocabulary only. *)
Definition upper_char (c : ascii) : ascii :=
  if islower_ascii c then ascii_of_N (code c - 32) else c.

Fixpoint map (f : ascii -> ascii) (s : string) : string :=
  match s with
  | EmptyString => EmptyString
  | String c s' => String (f c) (map f s')
  end.

Definition lower : string -> string := map lower_char.
Definition upper : string -> string := map upper_char.

(** [str.title]: a letter that follows a letter is lower-cased, any
    other letter is upper-cased. *)
Fixpoint title_from (prev_cased : bool) (s : string) : string :=
  match s with
  | EmptyString => EmptyString
  | String c s' =>
      if isupper_ascii c || islower_ascii c
      then String (if prev_cased then lower_char c else upper_char c)
                  (title_from true s')
      else String c (title_from false s')
  end.

Definition title : string -> string := title_from false.

Fixpoint lstrip (s : string) : string :=
  match s with
  | EmptyString => EmptyString
  | String c s' => if isspace c then lstrip s' else s
  end.

Fixpoint rstrip (s : string) : string :=
  match s with
  | EmptyString => EmptyString
  | String c s' =>
      match rstrip s' with
      | EmptyString => if isspace c then EmptyString else String c EmptyString
      | r => String c r
      end
  end.

Definition strip (s : string) : string := rstrip (lstrip s).

Fixpoint all (p : ascii -> bool) (s : string) : bool :=
  match s with
  | EmptyString => true
  | String c s' => p c && all p s'
  end.

(** [sub in s] on strings. *)
Fixpoint contains (sub s : string) : bool :=
  String.prefix sub s ||
  match s with
  | EmptyString => false
  | String _ s' => contains sub s'
  end.

Fixpoint drop (n : nat) (s : string) : string :=
  match n, s with
  | S n', String _ s' => drop n' s'
  | _, _ => s
  end.

(** [s.replace(old, new)] for a non-empty [old]: the occurrences are
    taken left to right and do not overlap.  [skip] counts the characters
    of the occurrence being replaced that are still ahead. *)
Fixpoint replace_from (skip : nat) (old new s : string) : string :=
  match s with
  | EmptyString => EmptyString
  | String c s' =>
      match skip with
      | S k => replace_from k old new s'
      | O =>
          if String.prefix old s
          then new ++ replace_from (String.length old - 1) old new s'
          else String c (replace_from O old new s')
      end
  end.

Definition replace (old new s : string) : string := replace_from O old new s.

(** [x in l] on a list of strings. *)
Definition mem (x : string) (l : list string) : bool :=
  existsb (String.eqb x) l.

(** [list(set(l))].  Python leaves the order of the result unspecified;
    the model keeps the first occurrence of each element, in order. *)
Fixpoint list_set (l : list string) : list string :=
  match l with
  | [] => []
  | x :: l' => x :: filter (fun y => negb (String.eqb x y)) (list_set l')
  end.

(** [str(n)] for an [int]. *)
Definition str_of_int (n : Z) : string := NilEmpty.string_of_int (Z.to_int n).

(** [int(s)] on a string of decimal digits: the value, or the message of
    the [ValueError] that CPython (3.11, default settings) raises when the
    string has more than 4300 digits, leading zeros counted. *)
Definition digit_value (c : ascii) : Z := Z.of_N (code c - 48).

Fixpoint int_from (acc : Z) (s : string) : Z :=
  match s with
  | EmptyString => acc
  | String c s' => int_from (10 * acc + digit_value c) s'
  end.

Definition int_max_str_digits : nat := 4300.

Definition int_error (s : string) : string :=
  "Exceeds the limit (4300 digits) for integer string conversion: value has "
  ++ str_of_int (Z.of_nat (String.length s))
  ++ " digits; use sys.set_int_max_str_digits() to increase the limit".

Definition int (s : string) : string + Z :=
  if (int_max_str_digits <? String.length s)%nat then inl (int_error s)
  else inr (int_from 0 s).

End PyStr.

(* ------------------------------------------------------------------ *)
(** ** The fragment of [re] the services use *)

Module Re.
Import PyStr.

Inductive regex : Type :=
| Eps                         (* empty pattern *)
| Lit (c : ascii)             (* a literal character *)
| Cls (p : ascii -> bool)     (* a character class *)
| Dot                         (* [.]: anything but a newline *)
| Eol                         (* [$] under MULTILINE *)
| Cat (r1 r2 : regex)
| Alt (r1 r2 : regex)         (* r1|r2 *)
| Opt (r : regex)             (* r?  greedy *)
| Star (r : regex)            (* r*  greedy *)
| Lazy (r : regex)            (* r*? *)
| Grp (r : regex).            (* the capturing group 1 *)

Definition Plus (r : regex) : regex := Cat r (Star r).

Fixpoint Str (s : string) : regex :=
  match s with
  | EmptyString => Eps
  | String c s' => Cat (Lit c) (Str s')
  end.

Definition newline : ascii := ascii_of_N 10.

Fixpoint take (n : nat) (s : string) : string :=
  match n, s with
  | S n', String c s' => String c (take n' s')
  | _, _ => EmptyString
  end.

Section Matcher.
Variable ignorecase : bool.
Context {A : Type}.

Definition lit_eq (c d : ascii) : bool :=
  if ignorecase then Ascii.eqb (lower_char c) (lower_char d)
  else Ascii.eqb c d.

(** Backtracking matcher in continuation-passing style: [run r s g k]
    matches [r] at the head of [s] and hands the capture and the rest of
    the input to [k]; alternatives are tried in the order of [re]
    (greedy: longest first, lazy: shortest first) until [k] accepts. *)
Fixpoint run (r : regex) (s : string) (g : option string)
         (k : option string -> string -> option A) : option A :=
  match r with
  | Eps => k g s
  | Lit c =>
      match s with
      | String d s' => if lit_eq c d then k g s' else None
      | EmptyString => None
      end
  | Cls p =>
      match s with
      | String d s' => if p d then k g s' else None
      | EmptyString => None
      end
  | Dot =>
      match s with
      | String d s' => if Ascii.eqb d newline then None else k g s'
      | EmptyString => None
      end
  | Eol =>
      match s with
      | EmptyString => k g s
      | String d _ => if Ascii.eqb d newline then k g s else None
      end
  | Cat r1 r2 => run r1 s g (fun g' s' => run r2 s' g' k)
  | Alt r1 r2 =>
      match run r1 s g k with Some x => Some x | None => run r2 s g k end
  | Opt r1 =>
      match run r1 s g k with Some x => Some x | None => k g s end
  | Star r1 =>
      (fix loop (n : nat) (s : string) (g : option string) : option A :=
         match n with
         | O => k g s
         | S n' =>
             match run r1 s g (fun g' s' =>
                     if (String.length s' <? String.length s)%nat
                     then loop n' s' g' else None)
             with
             | Some x => Some x
             | None => k g s
             end
         end) (String.length s) s g
  | Lazy r1 =>
      (fix loop (n : nat) (s : string) (g : option string) : option A :=
         match n with
         | O => k g s
         | S n' =>
             match k g s with
             | Some x => Some x
             | None =>
                 run r1 s g (fun g' s' =>
                   if (String.length s' <? String.length s)%nat
                   then loop n' s' g' else None)
             end
         end) (String.length s) s g
  | Grp r1 =>
      run r1 s g (fun _ s' =>
        k (Some (take (String.length s - String.length s') s)) s')
  end.
End Matcher.

(** [re.search(r, s)], returning [match.group(1)] ([None] both when
    nothing matches and when the group did not take part). *)
Fixpoint search_group (r : regex) (s : string) : option string :=
  match run false r s None (fun g _ => Some g) with
  | Some g => g
  | None =>
      match s with
      | EmptyString => None
      | String _ s' => search_group r s'
      end
  end.

(** Length of the match of [r] at the head of [s], if any. *)
Definition match_length (ignorecase : bool) (r : regex) (s : string)
  : option nat :=
  run ignorecase r s None
      (fun _ s' => Some (String.length s - String.length s')%nat).

(** [re.sub(r, repl, s)] for a pattern that matches no empty string:
    matches are replaced left to right without overlap.  [skip] counts
    the characters of the current match still ahead. *)
Fixpoint sub_from (ignorecase : bool) (skip : nat) (r : regex)
         (repl s : string) : string :=
  match s with
  | EmptyString => EmptyString
  | String c s' =>
      match skip with
      | S k => sub_from ignorecase k r repl s'
      | O =>
          match match_length ignorecase r s with
          | Some (S n) => repl ++ sub_from ignorecase n r repl s'
          | _ => String c (sub_from ignorecase O r repl s')
          end
      end
  end.

Definition sub (r : regex) (repl s : string) : string :=
  sub_from false O r repl s.

Definition sub_ignorecase (r : regex) (repl s : string) : string :=
  sub_from true O r repl s.

End Re.

(* ------------------------------------------------------------------ *)
(** ** [difflib.SequenceMatcher(None, a, b).ratio()] *)

Module Difflib.

Local Open Scope Z_scope.

Definition block : Type := (Z * Z * Z)%type.   (* Match(a=i, b=j, size=k) *)

Section Matcher.
Variables a b : list ascii.

Definition len (l : list ascii) : Z := Z.of_nat (List.length l).

(** [l[i]] for an index in range. *)
Definition item (l : list ascii) (i : Z) : option ascii :=
  if i <? 0 then None else nth_error l (Z.to_nat i).

Definition same_item (i j : Z) : bool :=
  match item a i, item b j with
  | Some x, Some y => Ascii.eqb x y
  | _, _ => false
  end.

Definition range (lo hi : Z) : list Z :=
  List.map (fun n => lo + Z.of_nat n) (seq 0 (Z.to_nat (hi - lo))).

(** *** [__chain_b] *)

Fixpoint indices_from (x : ascii) (l : list ascii) (j : Z) : list Z :=
  match l with
  | [] => []
  | y :: l' =>
      if Ascii.eqb x y then j :: indices_from x l' (j + 1)
      else indices_from x l' (j + 1)
  end.

(** No [isjunk] function is given, so [bjunk] stays empty. *)
Definition isbjunk (x : option ascii) : bool := false.

(** [autojunk]: in a [b] of 200 elements or more, an element that
    occurs more than [n // 100 + 1] times is dropped from [b2j]. *)
Definition bpopular (x : ascii) : bool :=
  (200 <=? len b) &&
  (len b / 100 + 1 <? Z.of_nat (List.length (indices_from x b 0))).

(** [b2j.get(x, nothing)] *)
Definition b2j (x : ascii) : list Z :=
  if bpopular x then [] else indices_from x b 0.

(** *** [find_longest_match] *)

Definition j2len_get (d : list (Z * Z)) (j : Z) : Z :=
  match find (fun e => fst e =? j) d with
  | Some e => snd e
  | None => 0
  end.

(** The loop [for j in b2j.get(a[i], nothing)], with its [continue]
    and [break]. *)
Fixpoint scan_row (js : list Z) (i blo bhi : Z) (j2len : list (Z * Z))
         (best : block) (newj2len : list (Z * Z))
  : block * list (Z * Z) :=
  match js with
  | [] => (best, newj2len)
  | j :: js' =>
      if j <? blo then scan_row js' i blo bhi j2len best newj2len
      else if bhi <=? j then (best, newj2len)
      else
        let k := j2len_get j2len (j - 1) + 1 in
        let '(_, _, bestsize) := best in
        scan_row js' i blo bhi j2len
                 (if bestsize <? k then (i - k + 1, j - k + 1, k) else best)
                 ((j, k) :: newj2len)
  end.

(** The loop [for i in range(alo, ahi)]. *)
Fixpoint scan_rows (rows : list Z) (blo bhi : Z) (j2len : list (Z * Z))
         (best : block) : block :=
  match rows with
  | [] => best
  | i :: rows' =>
      let js := match item a i with Some x => b2j x | None => [] end in
      let '(best', newj2len) := scan_row js i blo bhi j2len best [] in
      scan_rows rows' blo bhi newj2len best'
  end.

(** The two shapes of [while] loop that grow the block at its ends;
    [junk] tells which of [isbjunk(..)] and [not isbjunk(..)] guards the
    loop; [fuel] bounds the number of rounds. *)
Fixpoint extend_left (fuel : nat) (junk : bool) (alo blo : Z) (m : block)
  : block :=
  match fuel with
  | O => m
  | S fuel' =>
      let '(besti, bestj, bestsize) := m in
      if (alo <? besti) && (blo <? bestj)
         && Bool.eqb (isbjunk (item b (bestj - 1))) junk
         && same_item (besti - 1) (bestj - 1)
      then extend_left fuel' junk alo blo (besti - 1, bestj - 1, bestsize + 1)
      else m
  end.

Fixpoint extend_right (fuel : nat) (junk : bool) (ahi bhi : Z) (m : block)
  : block :=
  match fuel with
  | O => m
  | S fuel' =>
      let '(besti, bestj, bestsize) := m in
      if (besti + bestsize <? ahi) && (bestj + bestsize <? bhi)
         && Bool.eqb (isbjunk (item b (bestj + bestsize))) junk
         && same_item (besti + bestsize) (bestj + bestsize)
      then extend_right fuel' junk ahi bhi (besti, bestj, bestsize + 1)
      else m
  end.

(** The number of rounds after which the first condition of each loop
    fails: [besti > alo] on the left, [besti + bestsize < ahi] on the
    right. *)
Definition rounds_left (alo : Z) (m : block) : nat :=
  let '(besti, _, _) := m in Z.to_nat (besti - alo).

Definition rounds_right (ahi : Z) (m : block) : nat :=
  let '(besti, _, bestsize) := m in Z.to_nat (ahi - (besti + bestsize)).

Definition find_longest_match (alo ahi blo bhi : Z) : block :=
  let m0 := scan_rows (range alo ahi) blo bhi [] (alo, blo, 0) in
  let m1 := extend_left (rounds_left alo m0) false alo blo m0 in
  let m2 := extend_right (rounds_right ahi m1) false ahi bhi m1 in
  let m3 := extend_left (rounds_left alo m2) true alo blo m2 in
  extend_right (rounds_right ahi m3) true ahi bhi m3.

(** *** [get_matching_blocks] *)

(** The [while queue] loop; the head of [queue] is the entry that
    [queue.pop()] takes.  Every round either drops an entry or finds a
    block of at least one element and splits the entry around it, so
    [2 * min(len a, len b) + 1] rounds are enough. *)
Fixpoint queue_loop (fuel : nat) (queue : list (Z * Z * Z * Z))
         (matching_blocks : list block) : list block :=
  match fuel with
  | O => matching_blocks
  | S fuel' =>
      match queue with
      | [] => matching_blocks
      | (alo, ahi, blo, bhi) :: queue' =>
          let '(i, j, k) := find_longest_match alo ahi blo bhi in
          if k =? 0 then queue_loop fuel' queue' matching_blocks
          else
            let q1 := if (alo <? i) && (blo <? j)
                      then (alo, i, blo, j) :: queue' else queue' in
            let q2 := if (i + k <? ahi) && (j + k <? bhi)
                      then (i + k, ahi, j + k, bhi) :: q1 else q1 in
            queue_loop fuel' q2 (matching_blocks ++ [(i, j, k)])
      end
  end.

(** Tuple order, as [matching_blocks.sort()] uses it. *)
Definition block_leb (x y : block) : bool :=
  let '(i1, j1, k1) := x in
  let '(i2, j2, k2) := y in
  (i1 <? i2) || ((i1 =? i2) && ((j1 <? j2) || ((j1 =? j2) && (k1 <=? k2)))).

Fixpoint insert_block (x : block) (l : list block) : list block :=
  match l with
  | [] => [x]
  | y :: l' => if block_leb x y then x :: l else y :: insert_block x l'
  end.

Definition sort_blocks (l : list block) : list block :=
  fold_right insert_block [] l.

(** The loop that merges adjacent blocks. *)
Fixpoint collapse (l : list block) (cur : block) (non_adjacent : list block)
  : list block :=
  let '(i1, j1, k1) := cur in
  match l with
  | [] => if k1 =? 0 then non_adjacent else non_adjacent ++ [cur]
  | (i2, j2, k2) :: l' =>
      if (i1 + k1 =? i2) && (j1 + k1 =? j2)
      then collapse l' (i1, j1, k1 + k2) non_adjacent
      else collapse l' (i2, j2, k2)
                    (if k1 =? 0 then non_adjacent else non_adjacent ++ [cur])
  end.

Definition get_matching_blocks : list block :=
  let la := len a in
  let lb := len b in
  let found := queue_loop (S (List.length a + List.length b))
                          [(0, la, 0, lb)] [] in
  collapse (sort_blocks found) (0, 0, 0) [] ++ [(la, lb, 0)].

(** [_calculate_ratio]: [2.0 * matches / length], kept exact. *)
Definition calculate_ratio (matches length : Z) : Q :=
  if length =? 0 then 1%Q else Qmake (2 * matches) (Z.to_pos length).

Definition ratio : Q :=
  let matches :=
    fold_left Z.add (List.map (fun t : block => snd t) get_matching_blocks) 0 in
  calculate_ratio matches (len a + len b).
End Matcher.

Definition ratio_str (s1 s2 : string) : Q :=
  ratio (list_ascii_of_string s1) (list_ascii_of_string s2).

End Difflib.


(* ------------------------------------------------------------------ *)
(** ** [gap_analyzer.py] *)

Module GapAnalyzer.
Import PyStr.
Local Open Scope list_scope.

(** An entry of [improvement_priority]: a dict with these four keys. *)
Record PriorityItem : Type := mkPriorityItem {
  category : string;
  item : string;
  priority_score : Z;
  urgency : string
}.

Record GapAnalysisResult : Type := mkGapAnalysisResult {
  overall_match_score : Q;
  matching_skills : list string;
  missing_required_skills : list string;
  missing_preferred_skills : list string;
  experience_gap : option Z;
  experience_level_match : bool;
  matching_technologies : list string;
  missing_technologies : list string;
  matching_languages : list string;
  missing_languages : list string;
  matching_frameworks : list string;
  missing_frameworks : list string;
  matching_databases : list string;
  missing_databases : list string;
  matching_cloud_platforms : list string;
  missing_cloud_platforms : list string;
  recommendations : list string;
  improvement_priority : list PriorityItem
}.

(** *** The dictionaries [analyze_gap] reads *)

(** An element of a list of the parsed resume: a [str] or anything else
    ([extract_skills_from_resume] tests [isinstance(skill, str)]). *)
Inductive PyVal : Type :=
| PStr (s : string)
| POther.

(** An entry of [parsed['experience']]; only ['content'] is read. *)
Record Experience : Type := mkExperience {
  content : option string
}.

Record ParsedData : Type := mkParsedData {
  parsed_programming_languages : option (list PyVal);
  parsed_skills : option (list PyVal);
  parsed_experience : option (list Experience)
}.

Record ResumeData : Type := mkResumeData {
  parsed_data : option ParsedData
}.

(** The keys of [job_requirements] that [analyze_gap] reads. *)
Record JobRequirements : Type := mkJobRequirements {
  required_skills : option (list string);
  preferred_skills : option (list string);
  programming_languages : option (list string);
  frameworks : option (list string);
  databases : option (list string);
  cloud_platforms : option (list string);
  required_experience_years : option Z;
  experience_level : option string
}.

(** [d.get(key, [])], and [d.get(key)] used as a condition before the
    list is consumed (an empty list and an absent key both add nothing). *)
Definition get_list {A} (o : option (list A)) : list A :=
  match o with Some l => l | None => [] end.

(** *** The service *)

Definition skill_synonyms : list (string * list string) :=
  [ ("javascript", ["js"; "ecmascript"; "javascript"]);
    ("typescript", ["ts"; "typescript"]);
    ("python", ["python"; "python3"; "py"]);
    ("java", ["java"; "openjdk"]);
    ("react", ["react.js"; "reactjs"; "react"]);
    ("node", ["node.js"; "nodejs"; "node"]);
    ("postgresql", ["postgres"; "postgresql"; "psql"]);
    ("mongodb", ["mongo"; "mongodb"]);
    ("aws", ["amazon web services"; "aws"]);
    ("gcp", ["google cloud"; "gcp"; "google cloud platform"]);
    ("azure", ["microsoft azure"; "azure"]);
    ("docker", ["docker"; "containerization"]);
    ("kubernetes", ["k8s"; "kubernetes"]);
    ("fastapi", ["fastapi"; "fast api"]);
    ("django", ["django"]);
    ("flask", ["flask"]);
    ("express", ["express.js"; "expressjs"; "express"]);
    ("redis", ["redis"]);
    ("git", ["git"; "version control"]);
    ("ci/cd", ["ci/cd"; "continuous integration"; "continuous deployment";
               "devops"]) ].

(** The class [[^\w\s\+\#\.]]. *)
Definition special_char (c : ascii) : bool :=
  negb (isword c || isspace c || Ascii.eqb c "+" || Ascii.eqb c "#"
        || Ascii.eqb c ".").

Definition normalize_skill (skill : string) : string :=
  let skill := strip (lower skill) in
  let skill := Re.sub (Re.Cls special_char) "" skill in
  let skill := Re.sub (Re.Plus (Re.Cls isspace)) " " skill in
  skill.

Definition default_threshold : Q := 8 # 10.

(** The test [similarity >= threshold] on the ratio of two normalized
    skills. *)
Definition ratio_reaches (skill1 skill2 : string) (threshold : Q) : bool :=
  Qle_bool threshold (Difflib.ratio_str skill1 skill2).

Definition are_skills_similar (skill1 skill2 : string) (threshold : Q) : bool :=
  let skill1 := normalize_skill skill1 in
  let skill2 := normalize_skill skill2 in
  if String.eqb skill1 skill2 then true
  else if existsb (fun entry : string * list string =>
                     mem skill1 (snd entry) && mem skill2 (snd entry))
                  skill_synonyms then true
  else if ratio_reaches skill1 skill2 threshold then true
  else if contains skill1 skill2 || contains skill2 skill1 then true
  else false.

(** The body of the loop [for job_skill in normalized_job]. *)
Definition found_match (normalized_resume : list string) (job_skill : string)
  : bool :=
  if mem job_skill normalized_resume then true
  else existsb (fun resume_skill =>
                  are_skills_similar job_skill resume_skill default_threshold)
               normalized_resume.

Fixpoint match_loop (normalized_resume normalized_job : list string)
  : list string * list string :=
  match normalized_job with
  | [] => ([], [])
  | job_skill :: rest =>
      let '(matching, missing) := match_loop normalized_resume rest in
      if found_match normalized_resume job_skill
      then (job_skill :: matching, missing)
      else (matching, job_skill :: missing)
  end.

Definition find_skill_matches (resume_skills job_skills : list string)
  : list string * list string :=
  let normalized_resume := List.map normalize_skill resume_skills in
  let normalized_job := List.map normalize_skill job_skills in
  match_loop normalized_resume normalized_job.

Definition tech_patterns : list string :=
  [ "python"; "javascript"; "java"; "typescript"; "php"; "ruby"; "go"; "rust";
    "react"; "angular"; "vue"; "nodejs"; "express"; "django"; "flask";
    "fastapi"; "postgresql"; "mysql"; "mongodb"; "redis"; "sqlite";
    "elasticsearch"; "aws"; "azure"; "gcp"; "docker"; "kubernetes";
    "terraform"; "jenkins"; "git"; "jira"; "confluence"; "slack"; "figma" ].

(** [text] is [None] for Python's [None]; an absent ['content'] key reads
    as the empty string, with the same result. *)
Definition extract_technologies_from_text (text : option string) : list string :=
  match text with
  | None => []
  | Some EmptyString => []
  | Some text =>
      let text := lower text in
      filter (fun tech => contains tech text) tech_patterns
  end.

Definition extract_skills_from_resume (resume_data : ResumeData) : list string :=
  let skills :=
    match parsed_data resume_data with
    | None => []
    | Some parsed =>
        get_list (parsed_programming_languages parsed)
        ++ get_list (parsed_skills parsed)
        ++ List.map PStr
             (flat_map (fun exp => extract_technologies_from_text (content exp))
                       (get_list (parsed_experience parsed)))
    end in
  let cleaned_skills :=
    flat_map (fun skill =>
                match skill with
                | PStr s => if String.eqb (strip s) "" then [] else [strip s]
                | POther => []
                end) skills in
  list_set cleaned_skills.

(** [not x] for an [Optional[int]]. *)
Definition falsy (x : option Z) : bool :=
  match x with
  | None => true
  | Some n => (n =? 0)%Z
  end.

Definition calculate_experience_gap (resume_experience : option Z)
           (job_requirements : JobRequirements) : option Z :=
  let required_years := required_experience_years job_requirements in
  match required_years with
  | None => None
  | Some required =>
      if falsy required_years then None
      else
        let resume_experience :=
          match resume_experience with
          | Some n => if falsy resume_experience then 2%Z else n
          | None => 2%Z
          end in
        let gap := (required - resume_experience)%Z in
        Some (if (0 <? gap)%Z then gap else 0%Z)
  end.

Definition level_hierarchy : list (string * Z) :=
  [ ("entry", 1); ("junior", 1); ("mid", 2); ("intermediate", 2);
    ("senior", 3); ("lead", 4); ("principal", 4); ("executive", 5) ]%Z.

(** [level_hierarchy.get(level, 1)] *)
Definition level_rank (level : string) : Z :=
  match find (fun e => String.eqb (fst e) level) level_hierarchy with
  | Some e => snd e
  | None => 1%Z
  end.

Definition check_experience_level_match (resume_level job_level : string) : bool :=
  let resume_rank := level_rank (lower resume_level) in
  let job_rank := level_rank (lower job_level) in
  (job_rank <=? resume_rank)%Z.

Definition join (sep : string) (l : list string) : string := String.concat sep l.

Definition generate_recommendations (gap_result : GapAnalysisResult) : list string :=
  (match experience_gap gap_result with
   | Some gap =>
       if negb (falsy (Some gap)) && (0 <? gap)%Z
       then [("Gain " ++ str_of_int gap
             ++ " more years of relevant experience")%string]
       else []
   | None => []
   end)
  ++ (if negb (experience_level_match gap_result)
      then ["Consider taking on more senior responsibilities or leadership roles"]
      else [])
  ++ (match missing_required_skills gap_result with
      | [] => []
      | l => [("Learn these critical skills: " ++ join ", " (firstn 3 l))%string]
      end)
  ++ (match missing_languages gap_result with
      | [] => []
      | l => [("Consider learning: " ++ join ", " (firstn 2 l))%string]
      end)
  ++ (match missing_frameworks gap_result with
      | [] => []
      | l => [("Gain experience with: " ++ join ", " (firstn 2 l))%string]
      end)
  ++ (match missing_databases gap_result with
      | [] => []
      | l => [("Learn database technologies: " ++ join ", " l)%string]
      end)
  ++ (match missing_cloud_platforms gap_result with
      | [] => []
      | l => [("Get cloud platform experience: " ++ join ", " l)%string]
      end).

(** [priorities.sort(key=lambda x: x['priority_score'], reverse=True)]:
    a stable sort, entries with equal scores keep their order. *)
Fixpoint insert_by_score (x : PriorityItem) (l : list PriorityItem)
  : list PriorityItem :=
  match l with
  | [] => [x]
  | y :: l' =>
      if (priority_score y <=? priority_score x)%Z then x :: l
      else y :: insert_by_score x l'
  end.

Definition sort_by_score_desc (l : list PriorityItem) : list PriorityItem :=
  fold_right insert_by_score [] l.

Definition calculate_priority_scores (gap_result : GapAnalysisResult)
  : list PriorityItem :=
  let priorities :=
    List.map (fun skill => mkPriorityItem "Required Skill" skill 10 "Critical")
             (missing_required_skills gap_result)
    ++ List.map (fun lang => mkPriorityItem "Programming Language" lang 8 "High")
                (missing_languages gap_result)
    ++ List.map (fun framework => mkPriorityItem "Framework" framework 7 "High")
                (missing_frameworks gap_result)
    ++ List.map (fun db => mkPriorityItem "Database" db 6 "Medium")
                (missing_databases gap_result)
    ++ List.map (fun cloud => mkPriorityItem "Cloud Platform" cloud 6 "Medium")
                (missing_cloud_platforms gap_result)
    ++ List.map (fun skill => mkPriorityItem "Preferred Skill" skill 4 "Low")
                (missing_preferred_skills gap_result) in
  sort_by_score_desc priorities.

Definition len {A} (l : list A) : Z := Z.of_nat (List.length l).

(** [min(x, 1.0)] *)
Definition min_one (x : Q) : Q := if Qle_bool x 1 then x else 1%Q.

Definition set_recommendations (r : GapAnalysisResult) (v : list string)
  : GapAnalysisResult :=
  mkGapAnalysisResult
    (overall_match_score r) (matching_skills r) (missing_required_skills r)
    (missing_preferred_skills r) (experience_gap r) (experience_level_match r)
    (matching_technologies r) (missing_technologies r) (matching_languages r)
    (missing_languages r) (matching_frameworks r) (missing_frameworks r)
    (matching_databases r) (missing_databases r) (matching_cloud_platforms r)
    (missing_cloud_platforms r) v (improvement_priority r).

Definition set_improvement_priority (r : GapAnalysisResult)
           (v : list PriorityItem) : GapAnalysisResult :=
  mkGapAnalysisResult
    (overall_match_score r) (matching_skills r) (missing_required_skills r)
    (missing_preferred_skills r) (experience_gap r) (experience_level_match r)
    (matching_technologies r) (missing_technologies r) (matching_languages r)
    (missing_languages r) (matching_frameworks r) (missing_frameworks r)
    (matching_databases r) (missing_databases r) (matching_cloud_platforms r)
    (missing_cloud_platforms r) (recommendations r) v.

Definition analyze_gap (resume_data : ResumeData)
           (job_requirements : JobRequirements) : GapAnalysisResult :=
  let resume_skills := extract_skills_from_resume resume_data in
  let '(matching_required, missing_required) :=
    find_skill_matches resume_skills (get_list (required_skills job_requirements)) in
  let '(matching_preferred, missing_preferred) :=
    find_skill_matches resume_skills (get_list (preferred_skills job_requirements)) in
  let '(matching_languages, missing_languages) :=
    find_skill_matches resume_skills
                       (get_list (programming_languages job_requirements)) in
  let '(matching_frameworks, missing_frameworks) :=
    find_skill_matches resume_skills (get_list (frameworks job_requirements)) in
  let '(matching_databases, missing_databases) :=
    find_skill_matches resume_skills (get_list (databases job_requirements)) in
  let '(matching_cloud, missing_cloud) :=
    find_skill_matches resume_skills (get_list (cloud_platforms job_requirements)) in
  let resume_experience_years : option Z := None in
  let experience_gap :=
    calculate_experience_gap resume_experience_years job_requirements in
  let experience_level_match :=
    check_experience_level_match
      "mid"
      (match experience_level job_requirements with
       | Some l => l
       | None => "entry"
       end) in
  let total_required :=
    (len (get_list (required_skills job_requirements))
     + len (get_list (programming_languages job_requirements))
     + len (get_list (frameworks job_requirements)))%Z in
  let match_score :=
    if (0 <? total_required)%Z then
      let matched_count :=
        (len matching_required + len matching_languages
         + len matching_frameworks)%Z in
      min_one (Qmake matched_count (Z.to_pos total_required))
    else 0%Q in
  let gap_result :=
    mkGapAnalysisResult
      match_score
      (matching_required ++ matching_preferred)
      missing_required
      missing_preferred
      experience_gap
      experience_level_match
      (matching_languages ++ matching_frameworks)
      (missing_languages ++ missing_frameworks)
      matching_languages
      missing_languages
      matching_frameworks
      missing_frameworks
      matching_databases
      missing_databases
      matching_cloud
      missing_cloud
      [] [] in
  let gap_result :=
    set_recommendations gap_result (generate_recommendations gap_result) in
  let gap_result :=
    set_improvement_priority gap_result (calculate_priority_scores gap_result) in
  gap_result.

End GapAnalyzer.

(* ------------------------------------------------------------------ *)
(** ** [job_analyzer.py] *)

Module JobAnalyzer.
Import PyStr.
Local Open Scope list_scope.

Record JobRequirements : Type := mkJobRequirements {
  required_skills : list string;
  preferred_skills : list string;
  required_experience_years : option Z;
  experience_level : string;
  technologies : list string;
  programming_languages : list string;
  frameworks : list string;
  databases : list string;
  cloud_platforms : list string;
  tools : list string;
  certifications : list string;
  education_requirements : list string;
  responsibilities : list string;
  company_size : option string;
  industry : option string;
  work_location : option string;
  salary_range : option string
}.

(** [JobRequirements()]: every field at its declared default. *)
Definition default_requirements : JobRequirements :=
  mkJobRequirements [] [] None "entry" [] [] [] [] [] [] [] [] [] None None
                    None None.

(** What [raise] carries. *)
Inductive exn : Type :=
| ValueError (msg : string)
| OtherError (msg : string).

Inductive result (A : Type) : Type :=
| Return (x : A)
| Raise (e : exn).
Arguments Return {A} x.
Arguments Raise {A} e.

(** [any(term in text for term in terms)] *)
Definition any_in (terms : list string) (text : string) : bool :=
  existsb (fun term => contains term text) terms.

Definition cat_all (rs : list Re.regex) : Re.regex :=
  fold_right Re.Cat Re.Eps rs.

(** The pieces of the four patterns: a captured run of digits, a run of
    whitespace that may be empty, the word year with an optional s, and
    the plus sign. *)
Definition digits : Re.regex := Re.Grp (Re.Plus (Re.Cls isdigit)).
Definition spaces : Re.regex := Re.Star (Re.Cls isspace).
Definition years : Re.regex := Re.Cat (Re.Str "year") (Re.Opt (Re.Lit "s")).
Definition plus_sign : Re.regex := Re.Lit "+".

Definition exp_patterns : list Re.regex :=
  [ (* digits, optional plus, years, optional of, experience *)
    cat_all [digits; Re.Opt plus_sign; spaces; years; spaces;
             Re.Opt (Re.Cat (Re.Str "of") spaces); Re.Str "experience"];
    (* digits, optional plus, years, then in or with *)
    cat_all [digits; Re.Opt plus_sign; spaces; years; spaces;
             Re.Alt (Re.Str "in") (Re.Str "with")];
    (* minimum, digits, years *)
    cat_all [Re.Str "minimum"; spaces; digits; spaces; years];
    (* digits, plus, years *)
    cat_all [digits; plus_sign; spaces; years] ].

(** The loop over [exp_patterns]: the first pattern that matches decides. *)
Fixpoint first_years (patterns : list Re.regex) (text : string)
  : result (option Z) :=
  match patterns with
  | [] => Return None
  | pattern :: rest =>
      match Re.search_group pattern text with
      | Some group1 =>
          match int group1 with
          | inr years => Return (Some years)
          | inl msg => Raise (ValueError msg)
          end
      | None => first_years rest text
      end
  end.

Definition prog_languages : list string :=
  [ "python"; "javascript"; "java"; "c++"; "c#"; "php"; "ruby"; "go"; "rust";
    "typescript"; "swift"; "kotlin"; "scala"; "r"; "matlab"; "sql" ].

Definition framework_names : list string :=
  [ "react"; "angular"; "vue"; "nodejs"; "express"; "django"; "flask";
    "spring"; "rails"; "laravel"; "fastapi"; "nextjs"; "nuxt" ].

Definition database_names : list string :=
  [ "postgresql"; "mysql"; "mongodb"; "redis"; "sqlite"; "oracle";
    "cassandra"; "elasticsearch"; "dynamodb" ].

Definition cloud_platform_names : list string :=
  [ "aws"; "azure"; "gcp"; "google cloud"; "heroku"; "digitalocean" ].

Definition tool_names : list string :=
  [ "git"; "docker"; "kubernetes"; "jenkins"; "terraform"; "ansible";
    "jira"; "confluence"; "slack"; "figma"; "postman" ].

(** [int(match.group(1))] can raise; nothing in the function catches the
    error, so it leaves the function. *)
Definition extract_basic_requirements (job_description : string)
  : result JobRequirements :=
  let requirements := default_requirements in
  let text := lower job_description in
  let level :=
    if any_in ["senior"; "sr."; "lead"; "principal"] text then "senior"
    else if any_in ["mid-level"; "intermediate"; "3+ years"; "4+ years"] text
    then "mid"
    else if any_in ["entry"; "junior"; "new grad"; "recent graduate"] text
    then "entry"
    else experience_level requirements in
  match first_years exp_patterns text with
  | Raise e => Raise e
  | Return found =>
  let experience_years :=
    match found with
    | Some n => Some n
    | None => required_experience_years requirements
    end in
  let languages :=
    List.map title (filter (fun lang => contains lang text) prog_languages) in
  let frameworks :=
    List.map title
      (filter (fun framework =>
                 contains framework text
                 || contains (replace "js" ".js" framework) text)
              framework_names) in
  let databases :=
    List.map title (filter (fun db => contains db text) database_names) in
  let cloud_platforms :=
    List.map (fun platform =>
                if mem platform ["aws"; "gcp"] then upper platform
                else title platform)
             (filter (fun platform => contains platform text)
                     cloud_platform_names) in
  let tools :=
    List.map title (filter (fun tool => contains tool text) tool_names) in
  let location :=
    if any_in ["remote"; "work from home"; "wfh"] text then Some "remote"
    else if any_in ["hybrid"; "flexible"] text then Some "hybrid"
    else if any_in ["on-site"; "onsite"; "office"] text then Some "onsite"
    else work_location requirements in
  Return (mkJobRequirements
    (required_skills requirements)
    (preferred_skills requirements)
    experience_years
    level
    (technologies requirements)
    (programming_languages requirements ++ languages)
    (JobAnalyzer.frameworks requirements ++ frameworks)
    (JobAnalyzer.databases requirements ++ databases)
    (JobAnalyzer.cloud_platforms requirements ++ cloud_platforms)
    (JobAnalyzer.tools requirements ++ tools)
    (certifications requirements)
    (education_requirements requirements)
    (responsibilities requirements)
    (company_size requirements)
    (industry requirements)
    location
    (salary_range requirements))
  end.

(** The patterns of [clean_job_description], used with
    [re.IGNORECASE | re.MULTILINE]; each ends with a lazy run of any
    characters up to the end of the line. *)
Definition to_end_of_line : Re.regex := Re.Cat (Re.Lazy Re.Dot) Re.Eol.

Definition patterns_to_remove : list Re.regex :=
  [ Re.Cat (Re.Str "apply now") to_end_of_line;
    cat_all [Re.Str "submit"; Re.Lazy Re.Dot; Re.Str "resume"; to_end_of_line];
    Re.Cat (Re.Str "equal opportunity employer") to_end_of_line;
    Re.Cat (Re.Str "we are an equal") to_end_of_line ].

Definition clean_job_description (job_description : string) : string :=
  let cleaned :=
    Re.sub (Re.Plus (Re.Cls isspace)) " " (strip job_description) in
  let cleaned :=
    fold_left (fun cleaned pattern => Re.sub_ignorecase pattern "" cleaned)
              patterns_to_remove cleaned in
  strip cleaned.

Definition validate_requirements (requirements : JobRequirements)
  : JobRequirements :=
  mkJobRequirements
    (list_set (required_skills requirements))
    (list_set (preferred_skills requirements))
    (match required_experience_years requirements with
     | Some n => if negb (n =? 0)%Z && (n <? 0)%Z then None else Some n
     | None => None
     end)
    (if mem (experience_level requirements)
            ["entry"; "mid"; "senior"; "executive"]
     then experience_level requirements else "entry")
    (list_set (technologies requirements))
    (list_set (programming_languages requirements))
    (list_set (frameworks requirements))
    (list_set (databases requirements))
    (list_set (cloud_platforms requirements))
    (list_set (tools requirements))
    (certifications requirements)
    (education_requirements requirements)
    (responsibilities requirements)
    (company_size requirements)
    (industry requirements)
    (work_location requirements)
    (salary_range requirements).

Section Service.
(** The state set up by [__init__], and the two remote calls with the
    parsing of their answers: each returns requirements or raises. *)
Variables openai_enabled gemini_enabled : bool.
Variables openai_request gemini_request : string -> result JobRequirements.

Definition analyze_with_openai (job_description : string)
  : result JobRequirements :=
  if negb openai_enabled then Raise (ValueError "OpenAI API key not configured")
  else openai_request job_description.

Definition analyze_with_gemini (job_description : string)
  : result JobRequirements :=
  if negb gemini_enabled then Raise (ValueError "Gemini API key not configured")
  else gemini_request job_description.

Definition analyze_job_description (job_description : string)
  : result JobRequirements :=
  if String.eqb job_description "" || String.eqb (strip job_description) ""
  then Raise (ValueError "Job description cannot be empty")
  else
    let cleaned_description := clean_job_description job_description in
    let first_attempt :=
      if openai_enabled then analyze_with_openai cleaned_description
      else if gemini_enabled then analyze_with_gemini cleaned_description
      else extract_basic_requirements cleaned_description in
    let outcome :=
      match first_attempt with
      | Return r => Return r
      | Raise _ =>
          let second_attempt :=
            if gemini_enabled then analyze_with_gemini cleaned_description
            else extract_basic_requirements cleaned_description in
          match second_attempt with
          | Return r => Return r
          | Raise _ => extract_basic_requirements cleaned_description
          end
      end in
    match outcome with
    | Return requirements => Return (validate_requirements requirements)
    | Raise e => Raise e
    end.
End Service.

(** *** [get_confidence_score] *)

(** Truth value of a list, of an [Optional[int]] and of an [Optional[str]]
    used as a condition. *)
Definition nonempty {A} (l : list A) : bool :=
  match l with [] => false | _ => true end.

Definition truthy_int (x : option Z) : bool :=
  match x with Some n => negb (n =? 0)%Z | None => false end.

Definition truthy_str (x : option string) : bool :=
  match x with Some s => negb (String.eqb s "") | None => false end.

(** [score += w] under a condition. *)
Definition add_if (c : bool) (w : Q) (score : Q) : Q :=
  if c then (score + w)%Q else score.

Definition get_confidence_score (requirements : JobRequirements) : Q :=
  let score := 0%Q in
  let max_score := 10%Q in
  let score := add_if (nonempty (required_skills requirements)) 1 score in
  let score := add_if (nonempty (programming_languages requirements)) 1 score in
  let score := add_if (negb (String.eqb (experience_level requirements) "entry"))
                      1 score in
  let score := add_if (truthy_int (required_experience_years requirements))
                      1 score in
  let score := add_if (nonempty (technologies requirements)) 1 score in
  let score := add_if (nonempty (frameworks requirements)) 1 score in
  let score := add_if (nonempty (responsibilities requirements)) 2 score in
  let score := add_if (nonempty (education_requirements requirements)) 1 score in
  let score := add_if (truthy_str (work_location requirements)) 1 score in
  GapAnalyzer.min_one (score / max_score)%Q.

End JobAnalyzer.

(* ------------------------------------------------------------------ *)
(** ** Values read off [analyze_gap] *)

Module Derived.
Import GapAnalyzer.

(** The value [analyze_gap] computes for [match_score], as a function of
    its two arguments. *)
Definition score_of (resume_data : ResumeData)
           (job_requirements : JobRequirements) : Q :=
  let resume_skills := extract_skills_from_resume resume_data in
  let required := get_list (required_skills job_requirements) in
  let languages := get_list (programming_languages job_requirements) in
  let frames := get_list (frameworks job_requirements) in
  let total_required := (len required + len languages + len frames)%Z in
  if (0 <? total_required)%Z then
    min_one (Qmake (len (fst (find_skill_matches resume_skills required))
                    + len (fst (find_skill_matches resume_skills languages))
                    + len (fst (find_skill_matches resume_skills frames)))
                   (Z.to_pos total_required))
  else 0%Q.

(** The level [analyze_gap] passes as [job_level]:
    [job_requirements.get('experience_level', 'entry')]. *)
Definition job_level (job_requirements : JobRequirements) : string :=
  match experience_level job_requirements with
  | Some l => l
  | None => "entry"
  end.
End Derived.

(* ------------------------------------------------------------------ *)
(** ** Invariants used in the proofs *)

Module Invariants.
Import GapAnalyzer.
Local Open Scope Z_scope.

(** A block that lies inside the window [a[alo:ahi]], [b[blo:bhi]]. *)
Definition in_bounds (alo ahi blo bhi : Z) (m : Difflib.block) : Prop :=
  let '(i, j, k) := m in
  alo <= i /\ blo <= j /\ 0 <= k /\ i + k <= ahi /\ j + k <= bhi.

(** The entries of [j2len] when row [i] is about to be scanned: a run that
    ends at column [j] of the previous row is no longer than the part of the
    window above and to the left of that cell. *)
Definition row_ok (alo blo i : Z) (d : list (Z * Z)) : Prop :=
  Forall (fun e => 0 <= snd e <= i - alo /\ snd e <= fst e - blo + 1) d.

(** An entry of the queue of [get_matching_blocks], and the number of
    rounds it can still cause. *)
Definition entry_ok (e : Z * Z * Z * Z) : Prop :=
  let '(alo, ahi, blo, bhi) := e in alo <= ahi /\ blo <= bhi.

Definition weight (e : Z * Z * Z * Z) : Z :=
  let '(alo, ahi, blo, bhi) := e in 2 * Z.min (ahi - alo) (bhi - blo) + 1.

Fixpoint total_weight (queue : list (Z * Z * Z * Z)) : Z :=
  match queue with
  | [] => 0
  | e :: queue' => weight e + total_weight queue'
  end.

(** Order and selection on priority entries. *)
Definition not_below (x y : PriorityItem) : Prop :=
  priority_score y <= priority_score x.

Definition score_is (s : Z) (x : PriorityItem) : bool :=
  priority_score x =? s.
End Invariants.

(* ------------------------------------------------------------------ *)
(** ** Concrete inputs, most of them from [tests/test_gap_analyzer.py] *)

Module Inputs.
Import GapAnalyzer.
Local Open Scope list_scope.

(** [{}] as resume data and as job requirements. *)
Definition empty_resume : ResumeData := mkResumeData None.

Definition empty_requirements : JobRequirements :=
  mkJobRequirements None None None None None None None None.

(** [{'required_experience_years': n}] *)
Definition years_only (n : Z) : JobRequirements :=
  mkJobRequirements None None None None None None (Some n) None.

Definition sample_resume_data : ResumeData :=
  mkResumeData (Some (mkParsedData
    (Some [PStr "Python"; PStr "JavaScript"; PStr "Java"])
    (Some [PStr "React"; PStr "Django"; PStr "PostgreSQL"; PStr "Git";
           PStr "Docker"])
    (Some [mkExperience (Some "Developed web applications using React and Django. Worked with PostgreSQL databases and deployed using Docker on AWS.");
           mkExperience (Some "Built REST APIs using FastAPI and worked with MongoDB. Used Git for version control.")]))).

Definition sample_job_requirements : JobRequirements :=
  mkJobRequirements
    (Some ["Python"; "JavaScript"; "React"; "AWS"])
    (Some ["TypeScript"; "GraphQL"; "Redis"])
    (Some ["Python"; "JavaScript"; "TypeScript"])
    (Some ["React"; "Node.js"; "FastAPI"])
    (Some ["PostgreSQL"; "MongoDB"; "Redis"])
    (Some ["AWS"; "Azure"])
    (Some 3%Z)
    (Some "mid").

(** Requirements whose three scored lists are empty while other keys are
    set. *)
Definition unscored_requirements : JobRequirements :=
  mkJobRequirements (Some []) (Some ["GraphQL"]) None (Some [])
                    (Some ["Redis"]) (Some ["Azure"]) (Some 6%Z)
                    (Some "senior").

(** The result of [test_calculate_priority_scores]: one missing item per
    category, every other field at its default. *)
Definition one_gap_per_category : GapAnalysisResult :=
  mkGapAnalysisResult 0 [] ["TypeScript"] ["GraphQL"] None false [] [] []
                      ["Go"] [] ["Vue.js"] [] ["MongoDB"] [] ["Azure"] [] [].
End Inputs.

(* ------------------------------------------------------------------ *)
(** ** Shapes of strings *)

Module Shapes.
Import PyStr GapAnalyzer.

(** The characters of [s] that satisfy [p], in order. *)
Fixpoint filter_chars (p : ascii -> bool) (s : string) : string :=
  match s with
  | EmptyString => EmptyString
  | String c s' => if p c then String c (filter_chars p s') else filter_chars p s'
  end.

(** Every run of characters that satisfy [p] replaced by one space;
    [in_run] tells that the previous character was in a run. *)
Fixpoint squeeze (p : ascii -> bool) (in_run : bool) (s : string) : string :=
  match s with
  | EmptyString => EmptyString
  | String c s' =>
      if p c then (if in_run then squeeze p true s' else String " " (squeeze p true s'))
      else String c (squeeze p false s')
  end.

(** The length of the leading run of characters that satisfy [p]. *)
Fixpoint span (p : ascii -> bool) (s : string) : nat :=
  match s with
  | EmptyString => O
  | String c s' => if p c then S (span p s') else O
  end.

(** A character that [normalize_skill] does not remove. *)
Definition kept_char (c : ascii) : bool := negb (special_char c).

(** A character that [str.lower] leaves unchanged. *)
Definition lowered (c : ascii) : bool := Ascii.eqb (lower_char c) c.

(** The only whitespace is the space character, and no two spaces are
    adjacent; [after_space] tells that the previous character was a
    space. *)
Fixpoint single_spaced (after_space : bool) (s : string) : bool :=
  match s with
  | EmptyString => true
  | String c s' =>
      if isspace c
      then Ascii.eqb c " " && negb after_space && single_spaced true s'
      else single_spaced false s'
  end.

(** Kept characters only, lower case, single spaces. *)
Definition normal_form (s : string) : bool :=
  all kept_char s && all lowered s && single_spaced false s.

(** The first character, if any, is not whitespace. *)
Definition starts_clean (s : string) : bool :=
  match s with
  | EmptyString => true
  | String c _ => negb (isspace c)
  end.
End Shapes.

(* ------------------------------------------------------------------ *)
(** ** Other views of the results *)

Module Views.
Import PyStr GapAnalyzer.
Local Open Scope list_scope.

(** A job skill counts as found when it is similar to a resume skill. *)
Definition similar_to_some (normalized_resume : list string) (job_skill : string)
  : bool :=
  existsb (fun resume_skill =>
             are_skills_similar job_skill resume_skill default_threshold)
          normalized_resume.

(** The entries [calculate_priority_scores] appends, before the sort. *)
Definition priority_entries (gap_result : GapAnalysisResult) : list PriorityItem :=
  List.map (fun skill => mkPriorityItem "Required Skill" skill 10 "Critical")
           (missing_required_skills gap_result)
  ++ List.map (fun lang => mkPriorityItem "Programming Language" lang 8 "High")
              (missing_languages gap_result)
  ++ List.map (fun framework => mkPriorityItem "Framework" framework 7 "High")
              (missing_frameworks gap_result)
  ++ List.map (fun db => mkPriorityItem "Database" db 6 "Medium")
              (missing_databases gap_result)
  ++ List.map (fun cloud => mkPriorityItem "Cloud Platform" cloud 6 "Medium")
              (missing_cloud_platforms gap_result)
  ++ List.map (fun skill => mkPriorityItem "Preferred Skill" skill 4 "Low")
              (missing_preferred_skills gap_result).

(** [total_required] of [analyze_gap]. *)
Definition total_required (job_requirements : JobRequirements) : Z :=
  (len (get_list (required_skills job_requirements))
   + len (get_list (programming_languages job_requirements))
   + len (get_list (frameworks job_requirements)))%Z.

(** The lists of the result that hold skills. *)
Definition skill_lists (res : GapAnalysisResult) : list (list string) :=
  [ matching_skills res; missing_required_skills res;
    missing_preferred_skills res; matching_technologies res;
    missing_technologies res; matching_languages res; missing_languages res;
    matching_frameworks res; missing_frameworks res; matching_databases res;
    missing_databases res; matching_cloud_platforms res;
    missing_cloud_platforms res ].

Definition requirement_lists (job_requirements : JobRequirements)
  : list (list string) :=
  [ get_list (required_skills job_requirements);
    get_list (preferred_skills job_requirements);
    get_list (programming_languages job_requirements);
    get_list (frameworks job_requirements);
    get_list (databases job_requirements);
    get_list (cloud_platforms job_requirements) ].

(** How [extract_basic_requirements] writes a cloud platform: AWS and GCP
    in upper case, the others title-cased. *)
Definition cloud_platform_label (platform : string) : string :=
  if mem platform ["aws"; "gcp"] then upper platform else title platform.

(** The requirements of [test_get_confidence_score] that fill every scored
    field. *)
Definition complete_requirements : JobAnalyzer.JobRequirements :=
  JobAnalyzer.mkJobRequirements ["Python"; "JavaScript"] [] (Some 5%Z) "senior"
                    ["React"; "Node.js"] ["Python"; "JavaScript"]
                    ["React"; "FastAPI"] [] [] [] []
                    ["Bachelor's degree"]
                    ["Develop applications"; "Lead team"]
                    None None (Some "remote") None.



(** A capture, if there is one, of at most [n] characters. *)
Definition capture_within (n : nat) (g : option string) : Prop :=
  match g with
  | Some x => (String.length x <= n)%nat
  | None => True
  end.
End Views.

(* ------------------------------------------------------------------ *)
(** ** Runs of the model on the inputs of the repository's tests *)

Module Runs.
Import PyStr GapAnalyzer.
Local Open Scope list_scope.

Example normalize_skill_javascript : normalize_skill "JavaScript" = "javascript".
Proof. vm_compute. reflexivity. Qed.

Example normalize_skill_cpp : normalize_skill "C++" = "c++".
Proof. vm_compute. reflexivity. Qed.

Example normalize_skill_padded : normalize_skill "  Python  " = "python".
Proof. vm_compute. reflexivity. Qed.

Example normalize_skill_aws :
  normalize_skill "AWS (Amazon Web Services)" = "aws amazon web services".
Proof. vm_compute. reflexivity. Qed.

Example similar_by_synonym :
  are_skills_similar "JavaScript" "JS" default_threshold = true /\
  are_skills_similar "PostgreSQL" "Postgres" default_threshold = true.
Proof. split; vm_compute; reflexivity. Qed.

Example not_similar :
  are_skills_similar "Python" "Java" default_threshold = false /\
  are_skills_similar "React" "Angular" default_threshold = false.
Proof. split; vm_compute; reflexivity. Qed.

Example find_skill_matches_run :
  find_skill_matches ["Python"; "JavaScript"; "React"; "Django"; "PostgreSQL"]
                     ["Python"; "JavaScript"; "React"; "TypeScript"; "MongoDB"]
  = (["python"; "javascript"; "react"], ["typescript"; "mongodb"]).
Proof. vm_compute. reflexivity. Qed.

Example ratio_depends_on_order :
  Difflib.ratio_str "tide" "diet" = (2 # 8)%Q /\
  Difflib.ratio_str "diet" "tide" = (4 # 8)%Q.
Proof. split; vm_compute; reflexivity. Qed.

Example rule_based_extraction :
  exists r,
    JobAnalyzer.extract_basic_requirements
      "Senior Software Engineer, 5+ years of experience with Python, JavaScript and React; AWS required"
    = JobAnalyzer.Return r /\
    JobAnalyzer.experience_level r = "senior" /\
    JobAnalyzer.required_experience_years r = Some 5%Z /\
    In "Python" (JobAnalyzer.programming_languages r) /\
    In "Javascript" (JobAnalyzer.programming_languages r) /\
    JobAnalyzer.frameworks r = ["React"] /\
    JobAnalyzer.cloud_platforms r = ["AWS"].
Proof.
  eexists. split; [vm_compute; reflexivity|]. vm_compute. intuition.
Qed.
End Runs.

(* ------------------------------------------------------------------ *)
(** ** Properties of the gap analyzer *)

Import PyStr GapAnalyzer Derived Invariants Inputs.
Local Open Scope list_scope.

(** *** Helper lemmas *)

Lemma existsb_pointwise {A} (f g : A -> bool) (l : list A) :
  (forall x, f x = g x) -> existsb f l = existsb g l.
Proof.
  intros Hfg. induction l as [|x l IH]; simpl.
  - reflexivity.
  - rewrite Hfg, IH. reflexivity.
Qed.

(** Every job skill lands in exactly one of the two lists. *)
Lemma match_loop_length (normalized_resume normalized_job : list string) :
  (List.length (fst (match_loop normalized_resume normalized_job))
   + List.length (snd (match_loop normalized_resume normalized_job))
   = List.length normalized_job)%nat.
Proof.
  induction normalized_job as [|job_skill rest IH]; simpl.
  - reflexivity.
  - destruct (match_loop normalized_resume rest) as [matching missing].
    simpl in IH.
    destruct (found_match normalized_resume job_skill); simpl; lia.
Qed.

Lemma matching_at_most_job (resume_skills job_skills : list string) :
  (0 <= len (fst (find_skill_matches resume_skills job_skills))
        <= len job_skills)%Z.
Proof.
  unfold find_skill_matches, len.
  pose proof (match_loop_length (List.map normalize_skill resume_skills)
                                (List.map normalize_skill job_skills)) as H.
  rewrite length_map in H. lia.
Qed.

(** Each output of [find_skill_matches] is the normalized form of a job
    skill. *)
Lemma match_loop_from_job (normalized_resume normalized_job : list string) s :
  In s (fst (match_loop normalized_resume normalized_job))
  \/ In s (snd (match_loop normalized_resume normalized_job)) ->
  In s normalized_job.
Proof.
  induction normalized_job as [|job_skill rest IH]; simpl.
  - tauto.
  - destruct (match_loop normalized_resume rest) as [matching missing].
    simpl in IH.
    destruct (found_match normalized_resume job_skill); simpl; tauto.
Qed.

Lemma analyze_gap_score resume_data job_requirements :
  overall_match_score (analyze_gap resume_data job_requirements)
  = score_of resume_data job_requirements.
Proof.
  unfold analyze_gap, score_of.
  destruct (find_skill_matches _ (get_list (required_skills _))).
  destruct (find_skill_matches _ (get_list (preferred_skills _))).
  destruct (find_skill_matches _ (get_list (programming_languages _))).
  destruct (find_skill_matches _ (get_list (frameworks _))).
  destruct (find_skill_matches _ (get_list (databases _))).
  destruct (find_skill_matches _ (get_list (cloud_platforms _))).
  reflexivity.
Qed.

Lemma analyze_gap_experience resume_data job_requirements :
  experience_gap (analyze_gap resume_data job_requirements)
  = calculate_experience_gap None job_requirements
  /\ experience_level_match (analyze_gap resume_data job_requirements)
     = check_experience_level_match "mid" (job_level job_requirements).
Proof.
  unfold analyze_gap.
  destruct (find_skill_matches _ (get_list (required_skills _))).
  destruct (find_skill_matches _ (get_list (preferred_skills _))).
  destruct (find_skill_matches _ (get_list (programming_languages _))).
  destruct (find_skill_matches _ (get_list (frameworks _))).
  destruct (find_skill_matches _ (get_list (databases _))).
  destruct (find_skill_matches _ (get_list (cloud_platforms _))).
  split; reflexivity.
Qed.

Lemma min_one_bounds (x : Q) : (0 <= x)%Q -> (0 <= min_one x <= 1)%Q.
Proof.
  intros Hx. unfold min_one.
  destruct (Qle_bool x 1) eqn:E.
  - apply Qle_bool_iff in E. split; assumption.
  - split; [discriminate | apply Qle_refl].
Qed.

Lemma score_of_bounds resume_data job_requirements :
  (0 <= score_of resume_data job_requirements <= 1)%Q.
Proof.
  unfold score_of.
  set (rs := extract_skills_from_resume resume_data).
  set (required := get_list (required_skills job_requirements)).
  set (languages := get_list (programming_languages job_requirements)).
  set (frames := get_list (frameworks job_requirements)).
  destruct (0 <? len required + len languages + len frames)%Z eqn:E.
  - apply min_one_bounds.
    pose proof (matching_at_most_job rs required).
    pose proof (matching_at_most_job rs languages).
    pose proof (matching_at_most_job rs frames).
    unfold Qle; simpl. lia.
  - split; [apply Qle_refl | discriminate].
Qed.

(** *** The block search of [difflib] stays in its window and ends *)

Section BlockSearch.
Variables a b : list ascii.
Local Open Scope Z_scope.

Lemma extend_left_more_fuel fuel extra junk alo blo m :
  (Z.of_nat (Difflib.rounds_left alo m) <= Z.of_nat fuel) ->
  Difflib.extend_left a b (fuel + extra) junk alo blo m
  = Difflib.extend_left a b fuel junk alo blo m.
Proof.
  revert m. induction fuel as [|fuel IH]; intros [[i j] k] Hm;
    unfold Difflib.rounds_left in Hm.
  - simpl. destruct extra as [|extra]; simpl; [reflexivity|].
    replace (alo <? i) with false by (symmetry; apply Z.ltb_ge; lia).
    reflexivity.
  - simpl.
    match goal with |- (if ?c then _ else _) = _ => destruct c end;
      [|reflexivity].
    apply IH. unfold Difflib.rounds_left. lia.
Qed.

Lemma extend_left_bounds fuel junk alo ahi blo bhi m :
  in_bounds alo ahi blo bhi m ->
  in_bounds alo ahi blo bhi (Difflib.extend_left a b fuel junk alo blo m).
Proof.
  revert m. induction fuel as [|fuel IH]; intros [[i j] k] Hm; simpl.
  - exact Hm.
  - match goal with
    | |- in_bounds _ _ _ _ (if ?c then _ else _) => destruct c eqn:E
    end; [|exact Hm].
    apply IH.
    repeat (apply andb_prop in E; destruct E as [E ?]).
    match goal with H : (blo <? j) = true |- _ => apply Z.ltb_lt in H end.
    apply Z.ltb_lt in E. simpl in *. lia.
Qed.

Lemma extend_right_bounds fuel junk alo ahi blo bhi m :
  in_bounds alo ahi blo bhi m ->
  in_bounds alo ahi blo bhi (Difflib.extend_right a b fuel junk ahi bhi m).
Proof.
  revert m. induction fuel as [|fuel IH]; intros [[i j] k] Hm; simpl.
  - exact Hm.
  - match goal with
    | |- in_bounds _ _ _ _ (if ?c then _ else _) => destruct c eqn:E
    end; [|exact Hm].
    apply IH.
    repeat (apply andb_prop in E; destruct E as [E ?]).
    match goal with H : (j + k <? bhi) = true |- _ => apply Z.ltb_lt in H end.
    apply Z.ltb_lt in E. simpl in *. lia.
Qed.

Lemma j2len_get_ok alo blo i d j :
  alo <= i -> blo <= j -> row_ok alo blo i d ->
  0 <= Difflib.j2len_get d (j - 1) <= i - alo
  /\ Difflib.j2len_get d (j - 1) <= j - blo.
Proof.
  intros Hi Hj Hd. unfold Difflib.j2len_get.
  destruct (find (fun e => fst e =? j - 1) d) as [e|] eqn:E.
  - apply find_some in E. destruct E as [Hin He].
    apply Z.eqb_eq in He.
    unfold row_ok in Hd. rewrite Forall_forall in Hd.
    specialize (Hd e Hin). lia.
  - lia.
Qed.

Lemma scan_row_ok js : forall i alo ahi blo bhi j2len best newj2len,
  alo <= i < ahi ->
  row_ok alo blo i j2len ->
  in_bounds alo ahi blo bhi best ->
  row_ok alo blo (i + 1) newj2len ->
  let r := Difflib.scan_row js i blo bhi j2len best newj2len in
  in_bounds alo ahi blo bhi (fst r) /\ row_ok alo blo (i + 1) (snd r).
Proof.
  induction js as [|j js IH]; intros i alo ahi blo bhi j2len best newj2len
                                     Hi Hd Hbest Hnew; simpl.
  - split; assumption.
  - destruct (j <? blo) eqn:E1.
    + apply IH; assumption.
    + destruct (bhi <=? j) eqn:E2.
      * split; assumption.
      * apply Z.ltb_ge in E1. apply Z.leb_gt in E2.
        destruct (j2len_get_ok alo blo i j2len j) as [Hk1 Hk2];
          [lia | lia | assumption |].
        destruct best as [[bi bj] bk].
        apply IH; try assumption.
        -- destruct (bk <? Difflib.j2len_get j2len (j - 1) + 1); [|assumption].
           simpl. lia.
        -- constructor; [simpl; lia | assumption].
Qed.

Lemma scan_rows_ok n : forall s alo ahi blo bhi j2len best,
  0 <= s -> alo + s + Z.of_nat n <= ahi ->
  row_ok alo blo (alo + s) j2len ->
  in_bounds alo ahi blo bhi best ->
  in_bounds alo ahi blo bhi
    (Difflib.scan_rows a b
       (List.map (fun n => alo + Z.of_nat n) (seq (Z.to_nat s) n))
       blo bhi j2len best).
Proof.
  induction n as [|n IH]; intros s alo ahi blo bhi j2len best Hs Hn Hd Hbest;
    simpl.
  - assumption.
  - rewrite Z2Nat.id by lia.
    pose proof (scan_row_ok
                  (match Difflib.item a (alo + s) with
                   | Some x => Difflib.b2j b x
                   | None => []
                   end)
                  (alo + s) alo ahi blo bhi j2len best []) as H.
    destruct (Difflib.scan_row _ (alo + s) blo bhi j2len best [])
      as [best' newj2len].
    simpl in H. destruct H as [Hb' Hd']; try assumption; try lia.
    { constructor. }
    replace (S (Z.to_nat s)) with (Z.to_nat (s + 1)) by lia.
    apply IH; try lia; try assumption.
    replace (alo + (s + 1)) with (alo + s + 1) by lia. assumption.
Qed.

Lemma find_longest_match_bounds alo ahi blo bhi :
  alo <= ahi -> blo <= bhi ->
  in_bounds alo ahi blo bhi (Difflib.find_longest_match a b alo ahi blo bhi).
Proof.
  intros Ha Hb. unfold Difflib.find_longest_match.
  apply extend_right_bounds with (alo := alo) (blo := blo).
  apply extend_left_bounds.
  apply extend_right_bounds with (alo := alo) (blo := blo).
  apply extend_left_bounds.
  unfold Difflib.range.
  change 0%nat with (Z.to_nat 0).
  apply scan_rows_ok; try lia.
  - constructor.
  - simpl. lia.
Qed.


Lemma extend_right_more_fuel fuel extra junk ahi bhi m :
  (Z.of_nat (Difflib.rounds_right ahi m) <= Z.of_nat fuel) ->
  Difflib.extend_right a b (fuel + extra) junk ahi bhi m
  = Difflib.extend_right a b fuel junk ahi bhi m.
Proof.
  revert m. induction fuel as [|fuel IH]; intros [[i j] k] Hm;
    unfold Difflib.rounds_right in Hm.
  - simpl. destruct extra as [|extra]; simpl; [reflexivity|].
    replace (i + k <? ahi) with false by (symmetry; apply Z.ltb_ge; lia).
    reflexivity.
  - simpl.
    match goal with |- (if ?c then _ else _) = _ => destruct c end;
      [|reflexivity].
    apply IH. unfold Difflib.rounds_right. lia.
Qed.

Lemma weight_pos e : entry_ok e -> 1 <= weight e.
Proof.
  destruct e as [[[alo ahi] blo] bhi]. unfold entry_ok, weight. lia.
Qed.

Lemma total_weight_nonneg queue : Forall entry_ok queue -> 0 <= total_weight queue.
Proof.
  induction 1 as [|e queue He _ IH]; simpl; [lia|].
  pose proof (weight_pos e He). lia.
Qed.

Lemma queue_loop_more_fuel fuel : forall extra queue acc,
  Forall entry_ok queue ->
  total_weight queue <= Z.of_nat fuel ->
  Difflib.queue_loop a b (fuel + extra) queue acc
  = Difflib.queue_loop a b fuel queue acc.
Proof.
  induction fuel as [|fuel IH]; intros extra queue acc Hok Hw.
  - destruct queue as [|e queue].
    + destruct extra; reflexivity.
    + inversion Hok as [|? ? He Hq]; subst.
      pose proof (weight_pos e He). pose proof (total_weight_nonneg queue Hq).
      simpl in Hw. lia.
  - simpl. destruct queue as [|[[[alo ahi] blo] bhi] queue]; [reflexivity|].
    inversion Hok as [|? ? He Hq]; subst. destruct He as [Ha Hb].
    pose proof (find_longest_match_bounds alo ahi blo bhi Ha Hb) as Hm.
    pose proof (total_weight_nonneg queue Hq) as Hq0.
    destruct (Difflib.find_longest_match a b alo ahi blo bhi) as [[i j] k].
    cbn [in_bounds] in Hm. cbn [total_weight weight] in Hw.
    rewrite Nat2Z.inj_succ in Hw.
    destruct (k =? 0) eqn:Ek.
    + apply IH; [assumption | lia].
    + apply Z.eqb_neq in Ek.
      destruct ((alo <? i) && (blo <? j)) eqn:E1;
        destruct ((i + k <? ahi) && (j + k <? bhi)) eqn:E2;
        apply IH;
        repeat (apply Forall_cons; [cbn [entry_ok]; lia|]);
        try assumption; cbn [total_weight weight]; lia.
Qed.

(** The rounds granted to the [while queue] loop are enough: more rounds
    give the same blocks. *)
Lemma get_matching_blocks_fuel extra :
  Difflib.queue_loop a b (S (List.length a + List.length b) + extra)
                     [(0, Difflib.len a, 0, Difflib.len b)] []
  = Difflib.queue_loop a b (S (List.length a + List.length b))
                       [(0, Difflib.len a, 0, Difflib.len b)] [].
Proof.
  apply queue_loop_more_fuel.
  - repeat constructor; unfold Difflib.len; lia.
  - unfold Difflib.len. cbn [total_weight weight].
    rewrite Nat2Z.inj_succ, Nat2Z.inj_add. lia.
Qed.

End BlockSearch.

(** *** The sort of the priority list is a stable descending sort *)

Lemma insert_by_score_perm x l : Permutation (x :: l) (insert_by_score x l).
Proof.
  induction l as [|y l IH]; simpl.
  - apply Permutation_refl.
  - destruct (priority_score y <=? priority_score x)%Z.
    + apply Permutation_refl.
    + eapply Permutation_trans; [apply perm_swap|].
      apply perm_skip, IH.
Qed.

Lemma sort_by_score_desc_perm l : Permutation l (sort_by_score_desc l).
Proof.
  induction l as [|x l IH]; simpl.
  - apply Permutation_refl.
  - eapply Permutation_trans; [apply perm_skip, IH|].
    apply insert_by_score_perm.
Qed.

Lemma insert_by_score_sorted x l :
  StronglySorted not_below l -> StronglySorted not_below (insert_by_score x l).
Proof.
  induction 1 as [|y l Hl IH Hy]; simpl.
  - repeat constructor.
  - destruct (Z.leb_spec (priority_score y) (priority_score x)) as [Hle|Hgt].
    + constructor; [constructor; assumption|].
      constructor; [exact Hle|].
      rewrite Forall_forall in *. intros z Hz.
      specialize (Hy z Hz). unfold not_below in *. lia.
    + constructor; [exact IH|].
      rewrite Forall_forall in *. intros z Hz.
      apply (Permutation_in _ (Permutation_sym (insert_by_score_perm x l))) in Hz.
      destruct Hz as [<- | Hz].
      * unfold not_below. lia.
      * apply Hy, Hz.
Qed.

Lemma sort_by_score_desc_sorted l : StronglySorted not_below (sort_by_score_desc l).
Proof.
  induction l as [|x l IH]; simpl.
  - constructor.
  - apply insert_by_score_sorted, IH.
Qed.

Lemma insert_by_score_stable s x l :
  filter (score_is s) (insert_by_score x l) = filter (score_is s) (x :: l).
Proof.
  induction l as [|y l IH].
  - reflexivity.
  - cbn [insert_by_score].
    destruct (Z.leb_spec (priority_score y) (priority_score x)) as [Hle|Hgt].
    + reflexivity.
    + cbn [filter] in *. rewrite IH. unfold score_is.
      destruct (Z.eqb_spec (priority_score x) s), (Z.eqb_spec (priority_score y) s);
        try reflexivity; lia.
Qed.

Lemma sort_by_score_desc_stable s l :
  filter (score_is s) (sort_by_score_desc l) = filter (score_is s) l.
Proof.
  induction l as [|x l IH].
  - reflexivity.
  - cbn [sort_by_score_desc fold_right].
    rewrite insert_by_score_stable. cbn [filter].
    change (fold_right insert_by_score [] l) with (sort_by_score_desc l).
    rewrite IH. reflexivity.
Qed.


(** A skill that normalizes to the empty string is similar to every
    skill, at every threshold. *)
Lemma blank_skill_is_similar_to_all (a b : string) (threshold : Q) :
  normalize_skill a = "" -> are_skills_similar a b threshold = true.
Proof.
  intros Ha. unfold are_skills_similar. rewrite Ha.
  destruct (String.eqb "" (normalize_skill b)); [reflexivity|].
  destruct (existsb _ skill_synonyms); [reflexivity|].
  destruct (ratio_reaches _ _ _); [reflexivity|].
  destruct (normalize_skill b); reflexivity.
Qed.

(** Each output of [find_skill_matches] is [normalize_skill] of one of the
    job skills. *)
Lemma find_skill_matches_outputs resume_skills job_skills s :
  In s (fst (find_skill_matches resume_skills job_skills))
  \/ In s (snd (find_skill_matches resume_skills job_skills)) ->
  exists job_skill, In job_skill job_skills /\ s = normalize_skill job_skill.
Proof.
  intros H. unfold find_skill_matches in H.
  apply match_loop_from_job, in_map_iff in H.
  destruct H as [job_skill [Heq Hin]].
  exists job_skill. split; [assumption | symmetry; assumption].
Qed.

(** *** The similarity matcher *)

(** C1 (the code departs from the claim).  The empty string and "python"
    are both in normalized form, only the first is empty, and yet
    [are_skills_similar] answers true at the default threshold: the exact,
    synonym and ratio tests fail (the ratio is 0), and the containment test
    succeeds because the empty string is a substring of every string. *)
Theorem C1_empty_skill_is_similar_to_python :
  normalize_skill "" = "" /\
  normalize_skill "python" = "python" /\
  Difflib.ratio_str "" "python" = (0 # 6)%Q /\
  contains "" "python" = true /\
  are_skills_similar "" "python" default_threshold = true.
Proof. repeat split; vm_compute; reflexivity. Qed.

(** C2 (the code departs from the claim).  [normalize_skill] strips the ends
    before it removes the special characters, so a bullet in front of a skill
    leaves a leading space, which a second call removes: on "- Python" one
    call gives " python" and two calls give "python". *)
Theorem C2_normalize_skill_twice_differs :
  normalize_skill "- Python" = " python" /\
  normalize_skill (normalize_skill "- Python") = "python" /\
  normalize_skill (normalize_skill "- Python") <> normalize_skill "- Python".
Proof.
  split; [|split]; try (vm_compute; reflexivity).
  vm_compute. discriminate.
Qed.

(** C3 (the code departs from the claim).  [find_skill_matches] returns job
    skills as [normalize_skill] leaves them, so the untrimmed " python" comes
    out: in [missing] against a resume with Java, in [matching] against a
    resume with Python. *)
Theorem C3_find_skill_matches_returns_untrimmed :
  find_skill_matches ["Java"] ["- Python"] = ([], [" python"]) /\
  find_skill_matches ["Python"] ["- Python"] = ([" python"], []) /\
  strip " python" <> " python".
Proof.
  split; [|split]; try (vm_compute; reflexivity).
  vm_compute. discriminate.
Qed.

(** C4, counterexample.  At the default threshold "abab" is not similar to
    "abbaba" (ratio 6/10) while "abbaba" is similar to "abab" (ratio 8/10):
    the ratio of [difflib] depends on the order of its arguments. *)
Lemma C4_similarity_is_not_symmetric :
  ~ (forall (a b : string) (threshold : Q),
       are_skills_similar a b threshold = are_skills_similar b a threshold).
Proof.
  intros H. specialize (H "abab" "abbaba" default_threshold).
  vm_compute in H. discriminate.
Qed.

(** C4, amended.  [are_skills_similar a b t] and [are_skills_similar b a t]
    agree whenever the ratio test on the normalized skills gives the same
    answer in both orders; the exact, synonym and containment tests do not
    depend on the order. *)
Theorem C4_symmetric_when_ratio_test_agrees (a b : string) (threshold : Q) :
  ratio_reaches (normalize_skill a) (normalize_skill b) threshold
  = ratio_reaches (normalize_skill b) (normalize_skill a) threshold ->
  are_skills_similar a b threshold = are_skills_similar b a threshold.
Proof.
  intros Hratio. unfold are_skills_similar.
  rewrite (String.eqb_sym (normalize_skill a) (normalize_skill b)), Hratio.
  rewrite (existsb_pointwise
             (fun entry : string * list string =>
                mem (normalize_skill a) (snd entry)
                && mem (normalize_skill b) (snd entry))
             (fun entry : string * list string =>
                mem (normalize_skill b) (snd entry)
                && mem (normalize_skill a) (snd entry)))
    by (intros entry; apply andb_comm).
  rewrite (orb_comm (contains (normalize_skill a) (normalize_skill b))).
  reflexivity.
Qed.

Lemma C4_symmetric_when_ratio_test_agrees_witness :
  are_skills_similar "React" "Angular" default_threshold
  = are_skills_similar "Angular" "React" default_threshold.
Proof.
  apply (C4_symmetric_when_ratio_test_agrees "React" "Angular" default_threshold).
  vm_compute. reflexivity.
Defined.

(** *** The gap scorer *)

(** C5.  When the required-skill, language and framework lists of the job
    requirements are all empty (the keys may also be absent), [analyze_gap]
    returns a result, for any resume, whose [overall_match_score] is exactly
    0: the division is guarded by [total_required > 0]. *)
Theorem C5_score_zero_without_required_items
        (resume_data : ResumeData) (job_requirements : JobRequirements) :
  get_list (required_skills job_requirements) = [] ->
  get_list (programming_languages job_requirements) = [] ->
  get_list (frameworks job_requirements) = [] ->
  overall_match_score (analyze_gap resume_data job_requirements) = 0%Q.
Proof.
  intros Hreq Hlang Hframe.
  rewrite analyze_gap_score. unfold score_of.
  rewrite Hreq, Hlang, Hframe. reflexivity.
Qed.

Lemma C5_score_zero_without_required_items_witness :
  overall_match_score (analyze_gap sample_resume_data empty_requirements) = 0%Q
  /\ overall_match_score (analyze_gap sample_resume_data unscored_requirements)
     = 0%Q.
Proof.
  split.
  - apply (C5_score_zero_without_required_items
             sample_resume_data empty_requirements); reflexivity.
  - apply (C5_score_zero_without_required_items
             sample_resume_data unscored_requirements); reflexivity.
Defined.

(** C6.  For every resume and every job requirements, the
    [overall_match_score] of the result of [analyze_gap] lies between 0 and
    1, both included. *)
Theorem C6_score_between_zero_and_one
        (resume_data : ResumeData) (job_requirements : JobRequirements) :
  (0 <= overall_match_score (analyze_gap resume_data job_requirements) <= 1)%Q.
Proof.
  rewrite analyze_gap_score. apply score_of_bounds.
Qed.

(** C7.  [calculate_experience_gap] gives 0 for 7 years against 5 required,
    3 for 2 years against 5 required, [None] when neither the resume years
    nor the required years are given, and never a negative number. *)
Theorem C7_experience_gap_clamped :
  calculate_experience_gap (Some 7%Z) (years_only 5) = Some 0%Z /\
  calculate_experience_gap (Some 2%Z) (years_only 5) = Some 3%Z /\
  calculate_experience_gap None empty_requirements = None /\
  (forall resume_experience job_requirements gap,
      calculate_experience_gap resume_experience job_requirements = Some gap ->
      (0 <= gap)%Z).
Proof.
  repeat split.
  intros resume_experience job_requirements gap.
  unfold calculate_experience_gap.
  destruct (required_experience_years job_requirements) as [required|];
    [|discriminate].
  destruct (falsy (Some required)); [discriminate|].
  intros H. injection H as <-.
  match goal with |- context [(0 <? ?g)%Z] => destruct (Z.ltb_spec 0 g) end; lia.
Qed.

Lemma C7_experience_gap_clamped_witness : (0 <= 3)%Z.
Proof.
  apply (proj2 (proj2 (proj2 C7_experience_gap_clamped))
           None (years_only 5) 3%Z).
  reflexivity.
Defined.

(** *** The priority ranker *)

(** C8.  For a result with exactly one missing item in each of the six
    categories, [calculate_priority_scores] returns the six entries in this
    order: required skill (10), language (8), framework (7), database (6),
    cloud platform (6), preferred skill (4).  The scores descend, the
    required skill is alone at the top and the preferred skill alone at the
    bottom, each score is the one fixed for its category, and the database
    stays ahead of the cloud platform, the order in which the two entries of
    equal score were appended. *)
Theorem C8_priority_order_one_per_category
        (gap_result : GapAnalysisResult)
        (skill lang framework db cloud preferred : string) :
  missing_required_skills gap_result = [skill] ->
  missing_languages gap_result = [lang] ->
  missing_frameworks gap_result = [framework] ->
  missing_databases gap_result = [db] ->
  missing_cloud_platforms gap_result = [cloud] ->
  missing_preferred_skills gap_result = [preferred] ->
  calculate_priority_scores gap_result
  = [ mkPriorityItem "Required Skill" skill 10 "Critical";
      mkPriorityItem "Programming Language" lang 8 "High";
      mkPriorityItem "Framework" framework 7 "High";
      mkPriorityItem "Database" db 6 "Medium";
      mkPriorityItem "Cloud Platform" cloud 6 "Medium";
      mkPriorityItem "Preferred Skill" preferred 4 "Low" ]
  /\ List.map priority_score (calculate_priority_scores gap_result)
     = [10; 8; 7; 6; 6; 4]%Z.
Proof.
  intros H1 H2 H3 H4 H5 H6.
  unfold calculate_priority_scores.
  rewrite H1, H2, H3, H4, H5, H6.
  split; reflexivity.
Qed.

Lemma C8_priority_order_one_per_category_witness :
  List.map item (calculate_priority_scores one_gap_per_category)
  = ["TypeScript"; "Go"; "Vue.js"; "MongoDB"; "Azure"; "GraphQL"].
Proof.
  destruct (C8_priority_order_one_per_category
              one_gap_per_category
              "TypeScript" "Go" "Vue.js" "MongoDB" "Azure" "GraphQL"
              eq_refl eq_refl eq_refl eq_refl eq_refl eq_refl) as [H _].
  rewrite H. reflexivity.
Defined.

(** *** When the rule-based extraction returns *)

Lemma length_take_le n s : (String.length (Re.take n s) <= String.length s)%nat.
Proof.
  revert s. induction n as [|n IH]; intros [|c s]; cbn [Re.take String.length];
    try lia. specialize (IH s). lia.
Qed.

Section Captures.
Context {A : Type}.
Variable ignorecase : bool.
Variable n : nat.

(** Whatever the matcher hands to its continuation is a capture of at most
    [n] characters and a rest no longer than the input, when it was given
    such a capture and an input of at most [n] characters. *)
Lemma run_capture_within (r : Re.regex) :
  forall (s : string) (g : option string)
         (k : option string -> string -> option A) (x : A),
    Re.run ignorecase r s g k = Some x ->
    Views.capture_within n g -> (String.length s <= n)%nat ->
    exists g' s', k g' s' = Some x /\ Views.capture_within n g'
                  /\ (String.length s' <= String.length s)%nat.
Proof.
  induction r as [ | c | p | | | r1 IH1 r2 IH2 | r1 IH1 r2 IH2 | r1 IH1
                 | r1 IH1 | r1 IH1 | r1 IH1 ];
    intros s g k x H Hg Hs; cbn [Re.run] in H.
  - exists g, s. auto.
  - destruct s as [|d s']; [discriminate|].
    destruct (Re.lit_eq ignorecase c d); [|discriminate].
    exists g, s'. cbn [String.length]. auto.
  - destruct s as [|d s']; [discriminate|].
    destruct (p d); [|discriminate].
    exists g, s'. cbn [String.length]. auto.
  - destruct s as [|d s']; [discriminate|].
    destruct (Ascii.eqb d Re.newline); [discriminate|].
    exists g, s'. cbn [String.length]. auto.
  - destruct s as [|d s'].
    + exists g, "". auto.
    + destruct (Ascii.eqb d Re.newline); [|discriminate].
      exists g, (String d s'). auto.
  - destruct (IH1 _ _ _ _ H Hg Hs) as (g1 & s1 & H1 & Hg1 & Hs1).
    destruct (IH2 _ _ _ _ H1 Hg1 ltac:(lia)) as (g2 & s2 & H2 & Hg2 & Hs2).
    exists g2, s2. repeat split; try assumption. lia.
  - destruct (Re.run ignorecase r1 s g k) as [y|] eqn:E.
    + injection H as <-. exact (IH1 _ _ _ _ E Hg Hs).
    + exact (IH2 _ _ _ _ H Hg Hs).
  - destruct (Re.run ignorecase r1 s g k) as [y|] eqn:E.
    + injection H as <-. exact (IH1 _ _ _ _ E Hg Hs).
    + exists g, s. auto.
  - revert H. generalize (String.length s) at 1. intros fuel.
    revert s g Hg Hs. induction fuel as [|fuel IHf]; intros s g Hg Hs H.
    + exists g, s. auto.
    + match type of H with
      | match ?m with _ => _ end = _ => destruct m as [y|] eqn:E
      end.
      * injection H as <-.
        destruct (IH1 _ _ _ _ E Hg Hs) as (g1 & s1 & H1 & Hg1 & Hs1).
        destruct (String.length s1 <? String.length s)%nat; [|discriminate].
        destruct (IHf s1 g1 Hg1 ltac:(lia) H1) as (g2 & s2 & H2 & Hg2 & Hs2).
        exists g2, s2. repeat split; try assumption. lia.
      * exists g, s. auto.
  - revert H. generalize (String.length s) at 1. intros fuel.
    revert s g Hg Hs. induction fuel as [|fuel IHf]; intros s g Hg Hs H.
    + exists g, s. auto.
    + destruct (k g s) as [y|] eqn:E.
      * injection H as <-. exists g, s. auto.
      * destruct (IH1 _ _ _ _ H Hg Hs) as (g1 & s1 & H1 & Hg1 & Hs1).
        destruct (String.length s1 <? String.length s)%nat; [|discriminate].
        destruct (IHf s1 g1 Hg1 ltac:(lia) H1) as (g2 & s2 & H2 & Hg2 & Hs2).
        exists g2, s2. repeat split; try assumption. lia.
  - destruct (IH1 _ _ _ _ H Hg Hs) as (g1 & s1 & H1 & _ & Hs1).
    exists (Some (Re.take (String.length s - String.length s1) s)), s1.
    repeat split; try assumption.
    cbn [Views.capture_within]. pose proof (length_take_le (String.length s - String.length s1) s).
    lia.
Qed.
End Captures.

Lemma search_group_within (r : Re.regex) (s x : string) :
  Re.search_group r s = Some x -> (String.length x <= String.length s)%nat.
Proof.
  assert (H : forall n, (String.length s <= n)%nat ->
                        Re.search_group r s = Some x -> (String.length x <= n)%nat).
  { intros n. induction s as [|c s IH]; intros Hs; cbn [Re.search_group].
    - destruct (Re.run false r "" None (fun g _ => Some g)) as [g|] eqn:E;
        [|discriminate].
      intros ->.
      destruct (run_capture_within false n r _ _ _ _ E I Hs)
        as (g' & s' & Hk & Hg' & _).
      injection Hk as ->. exact Hg'.
    - destruct (Re.run false r (String c s) None (fun g _ => Some g)) as [g|] eqn:E.
      + intros ->.
        destruct (run_capture_within false n r _ _ _ _ E I Hs)
          as (g' & s' & Hk & Hg' & _).
        injection Hk as ->. exact Hg'.
      + apply IH. cbn [String.length] in Hs. lia. }
  apply H. lia.
Qed.

Lemma length_lower s : String.length (lower s) = String.length s.
Proof.
  unfold lower. induction s as [|c s IH]; cbn [PyStr.map String.length];
    [reflexivity | rewrite IH; reflexivity].
Qed.

Lemma int_within_limit s :
  (String.length s <= int_max_str_digits)%nat -> int s = inr (int_from 0 s).
Proof.
  intros H. unfold int.
  destruct (Nat.ltb_spec int_max_str_digits (String.length s)); [lia | reflexivity].
Qed.

Lemma first_years_returns patterns text :
  (String.length text <= int_max_str_digits)%nat ->
  exists found, JobAnalyzer.first_years patterns text = JobAnalyzer.Return found.
Proof.
  intros H. induction patterns as [|pattern rest IH]; cbn [JobAnalyzer.first_years].
  - exists None. reflexivity.
  - destruct (Re.search_group pattern text) as [group1|] eqn:E; [|exact IH].
    apply search_group_within in E.
    rewrite int_within_limit by lia. eexists. reflexivity.
Qed.


Lemma extract_basic_requirements_returns job_description :
  (String.length job_description <= int_max_str_digits)%nat ->
  exists r, JobAnalyzer.extract_basic_requirements job_description
            = JobAnalyzer.Return r.
Proof.
  intros H. unfold JobAnalyzer.extract_basic_requirements.
  destruct (first_years_returns JobAnalyzer.exp_patterns (lower job_description))
    as [found E]; [rewrite length_lower; exact H|].
  rewrite E. eexists. reflexivity.
Qed.

Lemma length_lstrip s : (String.length (lstrip s) <= String.length s)%nat.
Proof.
  induction s as [|c s IH]; cbn [lstrip String.length]; [lia|].
  destruct (isspace c); cbn [String.length]; lia.
Qed.

Lemma length_rstrip s : (String.length (rstrip s) <= String.length s)%nat.
Proof.
  induction s as [|c s IH]; cbn [rstrip String.length]; [lia|].
  destruct (rstrip s); [destruct (isspace c)|]; cbn [String.length] in *; lia.
Qed.

Lemma length_strip s : (String.length (strip s) <= String.length s)%nat.
Proof.
  unfold strip. pose proof (length_rstrip (lstrip s)). pose proof (length_lstrip s).
  lia.
Qed.

Lemma length_append a b :
  String.length (a ++ b)%string = (String.length a + String.length b)%nat.
Proof.
  induction a as [|c a IH]; cbn [append String.length]; [reflexivity|].
  rewrite IH. reflexivity.
Qed.

Lemma length_sub_from ignorecase r repl s :
  (String.length repl <= 1)%nat ->
  forall skip,
    (String.length (Re.sub_from ignorecase skip r repl s) <= String.length s)%nat.
Proof.
  intros Hrepl. induction s as [|c s IH]; intros skip; cbn [Re.sub_from];
    [cbn; lia|].
  destruct skip as [|k].
  - destruct (Re.match_length ignorecase r (String c s)) as [[|m]|];
      cbn [String.length]; try (specialize (IH O); lia).
    rewrite length_append. specialize (IH m). lia.
  - cbn [String.length]. specialize (IH k). lia.
Qed.

Lemma length_clean_job_description job_description :
  (String.length (JobAnalyzer.clean_job_description job_description)
   <= String.length job_description)%nat.
Proof.
  unfold JobAnalyzer.clean_job_description.
  eapply Nat.le_trans; [apply length_strip|].
  assert (H : forall patterns s,
             (String.length
                (fold_left (fun cleaned pattern =>
                              Re.sub_ignorecase pattern "" cleaned) patterns s)
              <= String.length s)%nat).
  { induction patterns as [|p ps IH]; intros s; cbn [fold_left]; [lia|].
    eapply Nat.le_trans; [apply IH|].
    apply length_sub_from. cbn. lia. }
  eapply Nat.le_trans; [apply H|].
  eapply Nat.le_trans; [apply length_sub_from; cbn; lia|].
  apply length_strip.
Qed.

Lemma Return_inj {A} (a b : A) :
  JobAnalyzer.Return a = JobAnalyzer.Return b -> a = b.
Proof. intros H. injection H as ->. reflexivity. Qed.

(** *** Empty input *)




(** *** Experience fields *)

(** C10.  The two experience fields of the result of [analyze_gap] are the
    same for any two resumes.  [experience_level_match] is true exactly when
    the rank of the job's level (that of 'entry' when the key is absent, 1
    for an unknown level) is at most 2, the rank of 'mid'.
    [experience_gap] is [max(n - 2, 0)] when [required_experience_years] is
    a non-zero integer [n], and [None] when it is zero or absent. *)
Theorem C10_experience_fields_ignore_resume
        (r1 r2 : ResumeData) (job_requirements : JobRequirements) :
  experience_gap (analyze_gap r1 job_requirements)
  = experience_gap (analyze_gap r2 job_requirements)
  /\ experience_level_match (analyze_gap r1 job_requirements)
     = experience_level_match (analyze_gap r2 job_requirements)
  /\ experience_level_match (analyze_gap r1 job_requirements)
     = (level_rank (lower (job_level job_requirements)) <=? 2)%Z
  /\ experience_gap (analyze_gap r1 job_requirements)
     = match required_experience_years job_requirements with
       | Some n => if (n =? 0)%Z then None else Some (Z.max (n - 2) 0)
       | None => None
       end.
Proof.
  destruct (analyze_gap_experience r1 job_requirements) as [Hg1 Hl1].
  destruct (analyze_gap_experience r2 job_requirements) as [Hg2 Hl2].
  rewrite Hg1, Hg2, Hl1, Hl2.
  repeat split.
  unfold calculate_experience_gap.
  destruct (required_experience_years job_requirements) as [n|]; [|reflexivity].
  simpl. destruct (n =? 0)%Z; [reflexivity|].
  f_equal. destruct (Z.ltb_spec 0 (n - 2)); lia.
Qed.

(* ------------------------------------------------------------------ *)
(** ** Further properties of the gap analyzer *)

Import Shapes Views.

(** *** What the two substitutions of [normalize_skill] do *)

Lemma sub_class_removed (p : ascii -> bool) (s : string) :
  Re.sub (Re.Cls p) "" s = filter_chars (fun c => negb (p c)) s.
Proof.
  unfold Re.sub. induction s as [|c s IH]; [reflexivity|].
  cbn [Re.sub_from filter_chars]. unfold Re.match_length. cbn [Re.run].
  destruct (p c); cbn [negb].
  - cbn [String.length]. rewrite Nat.sub_succ_l, Nat.sub_diag by lia.
    cbn [append]. exact IH.
  - rewrite IH. reflexivity.
Qed.

Section Star.
Context {A : Type}.
Variable p : ascii -> bool.
Variable k : option string -> string -> option A.
Hypothesis k_accepts : forall g s, k g s <> None.

Lemma star_class_greedy (s : string) (g : option string) :
  Re.run false (Re.Star (Re.Cls p)) s g k = k g (drop (span p s) s).
Proof.
  cbn [Re.run].
  assert (H : forall n t, (String.length t <= n)%nat ->
    (fix loop (n : nat) (s : string) (g : option string) : option A :=
       match n with
       | O => k g s
       | S n' =>
           match Re.run false (Re.Cls p) s g (fun g' s' =>
                   if (String.length s' <? String.length s)%nat
                   then loop n' s' g' else None)
           with
           | Some x => Some x
           | None => k g s
           end
       end) n t g = k g (drop (span p t) t)).
  { induction n as [|n IH]; intros t Ht.
    - destruct t; [reflexivity | simpl in Ht; lia].
    - destruct t as [|d t]; [reflexivity|].
      cbn [Re.run span]. destruct (p d); [|reflexivity].
      cbn [String.length drop].
      replace (String.length t <? S (String.length t))%nat with true
        by (symmetry; apply Nat.ltb_lt; lia).
      rewrite IH by (simpl in Ht; lia).
      destruct (k g (drop (span p t) t)) eqn:E; [reflexivity|].
      exfalso. exact (k_accepts _ _ E). }
  apply H. lia.
Qed.
End Star.

Lemma length_drop_span p s :
  (String.length (drop (span p s) s) = String.length s - span p s)%nat.
Proof.
  induction s as [|c s IH]; [reflexivity|].
  cbn [span]. destruct (p c); [|reflexivity].
  cbn [drop String.length]. rewrite IH. lia.
Qed.

Lemma span_le_length p s : (span p s <= String.length s)%nat.
Proof.
  induction s as [|c s IH]; simpl; [lia|]. destruct (p c); lia.
Qed.

Lemma match_length_plus_class p c s :
  Re.match_length false (Re.Plus (Re.Cls p)) (String c s)
  = if p c then Some (S (span p s)) else None.
Proof.
  unfold Re.match_length, Re.Plus. cbn [Re.run].
  destruct (p c); [|reflexivity].
  change ((fix loop (n : nat) (s0 : string) (g : option string) {struct n} : option nat := _) (String.length s) s None)
    with (Re.run false (Re.Star (Re.Cls p)) s None
            (fun _ s' => Some (String.length (String c s) - String.length s')%nat)).
  rewrite star_class_greedy by discriminate.
  rewrite length_drop_span. pose proof (span_le_length p s).
  cbn [String.length]. f_equal. lia.
Qed.

Lemma sub_from_plus_class p s :
  Re.sub_from false O (Re.Plus (Re.Cls p)) " " s = squeeze p false s
  /\ Re.sub_from false (span p s) (Re.Plus (Re.Cls p)) " " s = squeeze p true s.
Proof.
  induction s as [|c s [IH0 IH1]]; [split; reflexivity|].
  cbn [Re.sub_from squeeze span]. rewrite match_length_plus_class.
  destruct (p c).
  - split; [|exact IH1]. cbn [append]. rewrite IH1. reflexivity.
  - rewrite IH0. split; reflexivity.
Qed.

Lemma sub_runs_squeezed p s :
  Re.sub (Re.Plus (Re.Cls p)) " " s = squeeze p false s.
Proof. apply sub_from_plus_class. Qed.

Lemma normalize_skill_eq (skill : string) :
  normalize_skill skill
  = squeeze isspace false (filter_chars kept_char (strip (lower skill))).
Proof.
  unfold normalize_skill. rewrite sub_runs_squeezed, sub_class_removed.
  reflexivity.
Qed.

(** *** Strings in normal form *)

Lemma lower_char_idempotent c : lower_char (lower_char c) = lower_char c.
Proof. destruct c as [[] [] [] [] [] [] [] []]; reflexivity. Qed.

Lemma all_lowered_lower s : all lowered (lower s) = true.
Proof.
  induction s as [|c s IH]; [reflexivity|].
  cbn [lower PyStr.map all]. unfold lowered at 1.
  rewrite lower_char_idempotent, Ascii.eqb_refl. exact IH.
Qed.

Lemma lower_fixed s : all lowered s = true -> lower s = s.
Proof.
  induction s as [|c s IH]; [reflexivity|].
  cbn [all]. intros H. apply andb_prop in H. destruct H as [Hc Hs].
  unfold lower in *. cbn [PyStr.map]. rewrite IH by exact Hs.
  apply Ascii.eqb_eq in Hc. rewrite Hc. reflexivity.
Qed.

Lemma all_lstrip p s : all p s = true -> all p (lstrip s) = true.
Proof.
  induction s as [|c s IH]; [reflexivity|].
  intros H. cbn [lstrip]. destruct (isspace c); [|exact H].
  cbn [all] in H. apply andb_prop in H. apply IH, H.
Qed.

Lemma all_rstrip p s : all p s = true -> all p (rstrip s) = true.
Proof.
  induction s as [|c s IH]; [reflexivity|].
  cbn [all]. intros H. apply andb_prop in H. destruct H as [Hc Hs].
  cbn [rstrip]. specialize (IH Hs).
  destruct (rstrip s) as [|d r].
  - destruct (isspace c); [reflexivity|]. cbn [all]. rewrite Hc. reflexivity.
  - cbn [all] in *. rewrite Hc. exact IH.
Qed.

Lemma all_strip p s : all p s = true -> all p (strip s) = true.
Proof. intros H. apply all_rstrip, all_lstrip, H. Qed.

Lemma all_filter_chars p s : all p (filter_chars p s) = true.
Proof.
  induction s as [|c s IH]; [reflexivity|].
  cbn [filter_chars]. destruct (p c) eqn:E; [|exact IH].
  cbn [all]. rewrite E. exact IH.
Qed.

Lemma all_filter_chars_other p q s :
  all p s = true -> all p (filter_chars q s) = true.
Proof.
  induction s as [|c s IH]; [reflexivity|].
  cbn [all filter_chars]. intros H. apply andb_prop in H. destruct H as [Hc Hs].
  destruct (q c); [cbn [all]; rewrite Hc|]; apply IH, Hs.
Qed.

Lemma all_squeeze p q b s :
  p " "%char = true -> all p s = true -> all p (squeeze q b s) = true.
Proof.
  intros Hsp. revert b. induction s as [|c s IH]; intros b; [reflexivity|].
  cbn [all squeeze]. intros H. apply andb_prop in H. destruct H as [Hc Hs].
  destruct (q c); [destruct b|]; cbn [all];
    rewrite ?Hsp, ?Hc; apply IH, Hs.
Qed.

Lemma filter_chars_fixed p s : all p s = true -> filter_chars p s = s.
Proof.
  induction s as [|c s IH]; [reflexivity|].
  cbn [all filter_chars]. intros H. apply andb_prop in H. destruct H as [Hc Hs].
  rewrite Hc, IH by exact Hs. reflexivity.
Qed.

Lemma single_spaced_squeeze b s : single_spaced b (squeeze isspace b s) = true.
Proof.
  revert b. induction s as [|c s IH]; intros b; [reflexivity|].
  cbn [squeeze]. destruct (isspace c) eqn:E.
  - destruct b; [apply IH|]. cbn [single_spaced].
    replace (isspace " ") with true by reflexivity.
    rewrite IH. reflexivity.
  - cbn [single_spaced]. rewrite E. apply IH.
Qed.

Lemma squeeze_fixed b s :
  single_spaced b s = true -> squeeze isspace b s = s.
Proof.
  revert b. induction s as [|c s IH]; intros b; [reflexivity|].
  cbn [single_spaced squeeze]. destruct (isspace c).
  - intros H. apply andb_prop in H. destruct H as [H Hs].
    apply andb_prop in H. destruct H as [Hc Hb].
    apply Ascii.eqb_eq in Hc. subst c.
    destruct b; [discriminate|]. rewrite IH by exact Hs. reflexivity.
  - intros H. rewrite IH by exact H. reflexivity.
Qed.

Lemma single_spaced_lstrip b s :
  single_spaced b s = true -> single_spaced false (lstrip s) = true.
Proof.
  revert b. induction s as [|c s IH]; intros b; [reflexivity|].
  cbn [lstrip]. destruct (isspace c) eqn:E.
  - cbn [single_spaced]. rewrite E. intros H.
    apply andb_prop in H. destruct H as [_ Hs]. exact (IH true Hs).
  - cbn [single_spaced]. rewrite E. intros H. exact H.
Qed.

Lemma single_spaced_rstrip b s :
  single_spaced b s = true -> single_spaced b (rstrip s) = true.
Proof.
  revert b. induction s as [|c s IH]; intros b; [reflexivity|].
  cbn [single_spaced rstrip]. destruct (isspace c) eqn:E.
  - intros H. apply andb_prop in H. destruct H as [H Hs].
    specialize (IH true Hs).
    destruct (rstrip s) as [|d r]; [reflexivity|].
    cbn [single_spaced]. rewrite E, H. exact IH.
  - intros Hs. specialize (IH false Hs).
    destruct (rstrip s) as [|d r]; cbn [single_spaced]; rewrite E;
      [reflexivity | exact IH].
Qed.

Lemma single_spaced_strip s :
  single_spaced false s = true -> single_spaced false (strip s) = true.
Proof.
  intros H. apply single_spaced_rstrip, (single_spaced_lstrip false), H.
Qed.

Lemma starts_clean_lstrip s : starts_clean (lstrip s) = true.
Proof.
  induction s as [|c s IH]; [reflexivity|].
  cbn [lstrip]. destruct (isspace c) eqn:E; [exact IH|].
  cbn [starts_clean]. rewrite E. reflexivity.
Qed.

Lemma starts_clean_rstrip s : starts_clean s = true -> starts_clean (rstrip s) = true.
Proof.
  destruct s as [|c s]; [reflexivity|].
  cbn [starts_clean rstrip]. intros H.
  destruct (rstrip s); [|exact H].
  apply negb_true_iff in H. rewrite H. cbn [starts_clean]. rewrite H. reflexivity.
Qed.

Lemma lstrip_fixed s : starts_clean s = true -> lstrip s = s.
Proof.
  destruct s as [|c s]; [reflexivity|].
  cbn [starts_clean lstrip]. intros H. apply negb_true_iff in H.
  rewrite H. reflexivity.
Qed.

Lemma rstrip_idempotent s : rstrip (rstrip s) = rstrip s.
Proof.
  induction s as [|c s IH]; [reflexivity|].
  cbn [rstrip]. destruct (rstrip s) as [|d r] eqn:E.
  - destruct (isspace c) eqn:Ec; [reflexivity|].
    cbn [rstrip]. rewrite Ec. reflexivity.
  - change (rstrip (String c (String d r))) with
      (match rstrip (String d r) with
       | EmptyString => if isspace c then EmptyString else String c EmptyString
       | r0 => String c r0
       end).
    rewrite IH. reflexivity.
Qed.

Lemma strip_idempotent s : strip (strip s) = strip s.
Proof.
  unfold strip.
  rewrite (lstrip_fixed (rstrip (lstrip s)))
    by (apply starts_clean_rstrip, starts_clean_lstrip).
  apply rstrip_idempotent.
Qed.

Lemma normal_form_normalize_skill skill : normal_form (normalize_skill skill) = true.
Proof.
  rewrite normalize_skill_eq. unfold normal_form.
  rewrite all_squeeze, all_squeeze, single_spaced_squeeze; try reflexivity.
  - apply all_filter_chars_other, all_strip, all_lowered_lower.
  - apply all_filter_chars.
Qed.

Lemma normal_form_strip s : normal_form s = true -> normal_form (strip s) = true.
Proof.
  unfold normal_form. intros H.
  apply andb_prop in H. destruct H as [H H3].
  apply andb_prop in H. destruct H as [H1 H2].
  rewrite all_strip, all_strip, single_spaced_strip; auto.
Qed.

Lemma normalize_skill_normal_form s :
  normal_form s = true -> normalize_skill s = strip s.
Proof.
  intros H. pose proof (normal_form_strip s H) as Hs.
  unfold normal_form in H, Hs.
  apply andb_prop in H. destruct H as [H H3].
  apply andb_prop in H. destruct H as [H1 H2].
  apply andb_prop in Hs. destruct Hs as [Hs Hs3].
  apply andb_prop in Hs. destruct Hs as [Hs1 Hs2].
  rewrite normalize_skill_eq, (lower_fixed s H2).
  rewrite filter_chars_fixed by exact Hs1.
  apply squeeze_fixed, Hs3.
Qed.

(** X1.  A second call of [normalize_skill] only strips the ends of the
    result of the first, and a third call changes nothing more. *)
Theorem normalize_skill_twice skill :
  normalize_skill (normalize_skill skill) = strip (normalize_skill skill)
  /\ normalize_skill (normalize_skill (normalize_skill skill))
     = normalize_skill (normalize_skill skill).
Proof.
  pose proof (normal_form_normalize_skill skill) as H.
  rewrite (normalize_skill_normal_form _ H).
  split; [reflexivity|].
  rewrite (normalize_skill_normal_form _ (normal_form_strip _ H)).
  apply strip_idempotent.
Qed.

(** *** Matching, ranking and the experience fields *)

Lemma are_skills_similar_same_normal_form a b t :
  normalize_skill a = normalize_skill b -> are_skills_similar a b t = true.
Proof.
  intros H. unfold are_skills_similar. rewrite H, String.eqb_refl. reflexivity.
Qed.

Lemma mem_In x l : mem x l = true <-> In x l.
Proof.
  unfold mem. rewrite existsb_exists. split.
  - intros [y [Hy E]]. apply String.eqb_eq in E. subst. exact Hy.
  - intros H. exists x. split; [exact H | apply String.eqb_refl].
Qed.

Lemma found_match_similar nr s : found_match nr s = similar_to_some nr s.
Proof.
  unfold found_match, similar_to_some.
  destruct (mem s nr) eqn:E; [|reflexivity].
  symmetry. apply existsb_exists. apply mem_In in E.
  exists s. split; [exact E|].
  apply are_skills_similar_same_normal_form. reflexivity.
Qed.

Lemma match_loop_filter nr nj :
  match_loop nr nj
  = (filter (similar_to_some nr) nj,
     filter (fun s => negb (similar_to_some nr s)) nj).
Proof.
  induction nj as [|s nj IH]; [reflexivity|].
  cbn [match_loop filter]. rewrite IH, found_match_similar.
  destruct (similar_to_some nr s); reflexivity.
Qed.

(** X2.  [find_skill_matches] splits the normalized job skills, in their
    order, into those similar to some normalized resume skill at the default
    threshold and the others; the exact-match shortcut adds nothing to the
    similarity test. *)
Theorem find_skill_matches_partition resume_skills job_skills :
  let normalized_resume := List.map normalize_skill resume_skills in
  let normalized_job := List.map normalize_skill job_skills in
  find_skill_matches resume_skills job_skills
  = (filter (similar_to_some normalized_resume) normalized_job,
     filter (fun s => negb (similar_to_some normalized_resume s)) normalized_job).
Proof. apply match_loop_filter. Qed.

Lemma match_loop_no_resume normalized_job :
  match_loop [] normalized_job = ([], normalized_job).
Proof.
  induction normalized_job as [|s l IH]; [reflexivity|].
  cbn [match_loop]. rewrite IH. reflexivity.
Qed.

(** X3.  Against an empty resume skill list nothing matches and every
    normalized job skill is missing. *)
Theorem find_skill_matches_no_resume job_skills :
  find_skill_matches [] job_skills = ([], List.map normalize_skill job_skills).
Proof. apply match_loop_no_resume. Qed.

Lemma sorted_sort_fixed l :
  StronglySorted not_below l -> sort_by_score_desc l = l.
Proof.
  induction 1 as [|x l Hl IH Hx]; [reflexivity|].
  cbn [sort_by_score_desc fold_right].
  change (fold_right insert_by_score [] l) with (sort_by_score_desc l).
  rewrite IH. destruct l as [|y l']; [reflexivity|].
  cbn [insert_by_score]. inversion Hx as [|? ? Hy _]; subst.
  unfold not_below in Hy.
  destruct (Z.leb_spec (priority_score y) (priority_score x)); [reflexivity|lia].
Qed.

Lemma sorted_app (l1 l2 : list PriorityItem) (lo : Z) :
  StronglySorted not_below l1 -> StronglySorted not_below l2 ->
  Forall (fun x => (lo <= priority_score x)%Z) l1 ->
  Forall (fun x => (priority_score x <= lo)%Z) l2 ->
  StronglySorted not_below (l1 ++ l2).
Proof.
  intros H1 H2 Hlo Hhi. induction H1 as [|x l1 Hl IH Hx]; [exact H2|].
  inversion Hlo as [|? ? Hx0 Hl0]; subst.
  cbn [app]. constructor; [apply IH, Hl0|].
  apply Forall_app. split; [exact Hx|].
  rewrite Forall_forall in *. intros y Hy. specialize (Hhi y Hy).
  unfold not_below. lia.
Qed.

Lemma sorted_constant_score (f : string -> PriorityItem) (v : Z) l :
  (forall s, priority_score (f s) = v) ->
  StronglySorted not_below (List.map f l)
  /\ Forall (fun x => priority_score x = v) (List.map f l).
Proof.
  intros Hf. induction l as [|s l [IH1 IH2]]; cbn [List.map].
  - split; constructor.
  - split.
    + constructor; [exact IH1|].
      rewrite Forall_forall in *. intros y Hy. specialize (IH2 y Hy).
      unfold not_below. rewrite Hf. lia.
    + constructor; [apply Hf | exact IH2].
Qed.

Lemma priority_entries_sorted gap_result :
  StronglySorted not_below (priority_entries gap_result).
Proof.
  unfold priority_entries.
  repeat match goal with
  | |- StronglySorted _ (List.map ?f ?l ++ _) =>
      let v := eval cbv in (priority_score (f "")) in
      apply (sorted_app _ _ v);
      [ apply (sorted_constant_score f v); reflexivity
      |
      | eapply Forall_impl; [|apply (sorted_constant_score f v); reflexivity];
        cbv beta; intros; lia
      | rewrite ?Forall_app; repeat split;
        match goal with
        | |- Forall _ (List.map ?g ?m) =>
            let w := eval cbv in (priority_score (g "")) in
            eapply Forall_impl; [|apply (sorted_constant_score g w); reflexivity];
            cbv beta; intros; lia
        end ]
  end.
  apply (sorted_constant_score _ 4%Z). reflexivity.
Qed.

Theorem calculate_priority_scores_keeps_order gap_result :
  calculate_priority_scores gap_result = priority_entries gap_result.
Proof.
  apply (sorted_sort_fixed (priority_entries gap_result)),
    priority_entries_sorted.
Qed.

Ltac split_matches :=
  unfold analyze_gap;
  destruct (find_skill_matches _ (get_list (required_skills _)));
  destruct (find_skill_matches _ (get_list (preferred_skills _)));
  destruct (find_skill_matches _ (get_list (programming_languages _)));
  destruct (find_skill_matches _ (get_list (frameworks _)));
  destruct (find_skill_matches _ (get_list (databases _)));
  destruct (find_skill_matches _ (get_list (cloud_platforms _))).

Lemma analyze_gap_lists resume_data job_requirements :
  let res := analyze_gap resume_data job_requirements in
  let run := fun l => find_skill_matches (extract_skills_from_resume resume_data)
                                         (get_list l) in
  matching_skills res = fst (run (required_skills job_requirements))
                        ++ fst (run (preferred_skills job_requirements))
  /\ missing_required_skills res = snd (run (required_skills job_requirements))
  /\ missing_preferred_skills res = snd (run (preferred_skills job_requirements))
  /\ matching_languages res = fst (run (programming_languages job_requirements))
  /\ missing_languages res = snd (run (programming_languages job_requirements))
  /\ matching_frameworks res = fst (run (frameworks job_requirements))
  /\ missing_frameworks res = snd (run (frameworks job_requirements))
  /\ matching_databases res = fst (run (databases job_requirements))
  /\ missing_databases res = snd (run (databases job_requirements))
  /\ matching_cloud_platforms res = fst (run (cloud_platforms job_requirements))
  /\ missing_cloud_platforms res = snd (run (cloud_platforms job_requirements)).
Proof.
  cbv zeta. split_matches. repeat split; reflexivity.
Qed.

Lemma analyze_gap_derived resume_data job_requirements :
  let res := analyze_gap resume_data job_requirements in
  recommendations res = generate_recommendations res
  /\ improvement_priority res = calculate_priority_scores res
  /\ matching_technologies res = matching_languages res ++ matching_frameworks res
  /\ missing_technologies res = missing_languages res ++ missing_frameworks res.
Proof.
  cbv zeta. split_matches. repeat split; reflexivity.
Qed.

Lemma len_nil_iff {A} (l : list A) : len l = 0%Z <-> l = [].
Proof.
  unfold len. destruct l; simpl; split; intros H; try reflexivity;
    try discriminate; lia.
Qed.

Lemma len_nonneg {A} (l : list A) : (0 <= len l)%Z.
Proof. unfold len. lia. Qed.

Lemma find_skill_matches_lengths rs js :
  (len (fst (find_skill_matches rs js)) + len (snd (find_skill_matches rs js))
   = len js)%Z.
Proof.
  unfold find_skill_matches, len.
  pose proof (match_loop_length (List.map normalize_skill rs)
                                (List.map normalize_skill js)) as H.
  rewrite length_map in H. lia.
Qed.

(** X4.  The overall match score is 1 exactly when something is required
    in the scored categories and no required skill, language or framework is
    missing. *)
Theorem full_score_iff resume_data job_requirements :
  let res := analyze_gap resume_data job_requirements in
  (overall_match_score res == 1)%Q
  <-> (0 < total_required job_requirements)%Z
      /\ missing_required_skills res = []
      /\ missing_languages res = []
      /\ missing_frameworks res = [].
Proof.
  cbv zeta.
  destruct (analyze_gap_lists resume_data job_requirements)
    as (_ & -> & _ & _ & -> & _ & -> & _).
  rewrite analyze_gap_score. unfold score_of, total_required.
  set (rs := extract_skills_from_resume resume_data).
  set (req := get_list (required_skills job_requirements)).
  set (lang := get_list (programming_languages job_requirements)).
  set (fw := get_list (frameworks job_requirements)).
  pose proof (find_skill_matches_lengths rs req) as H1.
  pose proof (find_skill_matches_lengths rs lang) as H2.
  pose proof (find_skill_matches_lengths rs fw) as H3.
  pose proof (len_nonneg (fst (find_skill_matches rs req))).
  pose proof (len_nonneg (fst (find_skill_matches rs lang))).
  pose proof (len_nonneg (fst (find_skill_matches rs fw))).
  pose proof (len_nonneg (snd (find_skill_matches rs req))).
  pose proof (len_nonneg (snd (find_skill_matches rs lang))).
  pose proof (len_nonneg (snd (find_skill_matches rs fw))).
  rewrite <- !len_nil_iff.
  destruct (Z.ltb_spec 0 (len req + len lang + len fw)) as [Hpos|Hzero].
  - unfold min_one.
    match goal with |- context [Qle_bool ?x 1] => destruct (Qle_bool x 1) eqn:E end.
    + unfold Qeq. cbn [Qnum Qden]. rewrite Z2Pos.id by lia. lia.
    + exfalso. apply not_true_iff_false in E. apply E.
      apply Qle_bool_iff. unfold Qle. cbn [Qnum Qden].
      rewrite Z2Pos.id by lia. lia.
  - split; [intros Hq; discriminate Hq | lia].
Qed.

(** X5.  When the six requirement lists are empty or absent, every skill
    list of the result and the priority list are empty and the score is 0,
    whatever the resume. *)
Theorem analyze_gap_nothing_required resume_data job_requirements :
  Forall (fun l => l = []) (requirement_lists job_requirements) ->
  let res := analyze_gap resume_data job_requirements in
  Forall (fun l => l = []) (skill_lists res)
  /\ improvement_priority res = []
  /\ overall_match_score res = 0%Q.
Proof.
  intros H. unfold requirement_lists in H.
  repeat match goal with
         | H : Forall _ (_ :: _) |- _ => inversion H; clear H; subst
         end.
  cbv zeta. unfold analyze_gap.
  repeat match goal with
         | E : get_list ?x = [] |- _ => rewrite E; clear E
         end.
  unfold find_skill_matches at 1 2 3 4 5 6. cbn [List.map match_loop].
  cbn. repeat split; repeat constructor.
Qed.

(** X6.  When no skill can be extracted from the resume, nothing matches,
    every missing list is the normalized requirement list, and the score is
    0. *)
Theorem analyze_gap_no_resume_skills resume_data job_requirements :
  extract_skills_from_resume resume_data = [] ->
  let res := analyze_gap resume_data job_requirements in
  let normalized := fun l => List.map normalize_skill (get_list l) in
  matching_skills res = []
  /\ matching_technologies res = []
  /\ matching_databases res = []
  /\ matching_cloud_platforms res = []
  /\ missing_required_skills res = normalized (required_skills job_requirements)
  /\ missing_preferred_skills res = normalized (preferred_skills job_requirements)
  /\ missing_languages res = normalized (programming_languages job_requirements)
  /\ missing_frameworks res = normalized (frameworks job_requirements)
  /\ missing_databases res = normalized (databases job_requirements)
  /\ missing_cloud_platforms res = normalized (cloud_platforms job_requirements)
  /\ (overall_match_score res == 0)%Q.
Proof.
  intros H. cbv zeta.
  assert (Hscore : (overall_match_score (analyze_gap resume_data job_requirements)
                    == 0)%Q).
  { rewrite analyze_gap_score. unfold score_of. rewrite H.
    unfold find_skill_matches. cbn [List.map].
    rewrite !match_loop_no_resume. cbn [fst len List.length].
    destruct (0 <? _)%Z; reflexivity. }
  destruct (analyze_gap_lists resume_data job_requirements)
    as (E1 & E2 & E3 & E4 & E5 & E6 & E7 & E8 & E9 & E10 & E11).
  destruct (analyze_gap_derived resume_data job_requirements)
    as (_ & _ & E12 & _).
  rewrite E12, E1, E2, E3, E4, E5, E6, E7, E8, E9, E10, E11, H.
  unfold find_skill_matches. cbn [List.map].
  rewrite !match_loop_no_resume. cbn [fst snd app].
  repeat split; try reflexivity. exact Hscore.
Qed.

(** X7.  The priority list of the result of [analyze_gap] has one entry per
    missing item of that result, in category order and descending by
    score. *)
Theorem improvement_priority_lists_missing resume_data job_requirements :
  let res := analyze_gap resume_data job_requirements in
  improvement_priority res = priority_entries res
  /\ StronglySorted not_below (improvement_priority res)
  /\ List.length (improvement_priority res)
     = (List.length (missing_required_skills res)
        + List.length (missing_languages res)
        + List.length (missing_frameworks res)
        + List.length (missing_databases res)
        + List.length (missing_cloud_platforms res)
        + List.length (missing_preferred_skills res))%nat.
Proof.
  cbv zeta.
  destruct (analyze_gap_derived resume_data job_requirements) as (_ & -> & _).
  rewrite calculate_priority_scores_keeps_order.
  split; [reflexivity|]. split; [apply priority_entries_sorted|].
  unfold priority_entries. rewrite !length_app, !length_map. lia.
Qed.

Theorem generate_recommendations_empty_iff gap_result :
  generate_recommendations gap_result = []
  <-> match experience_gap gap_result with
      | Some gap => (gap <= 0)%Z
      | None => True
      end
      /\ experience_level_match gap_result = true
      /\ missing_required_skills gap_result = []
      /\ missing_languages gap_result = []
      /\ missing_frameworks gap_result = []
      /\ missing_databases gap_result = []
      /\ missing_cloud_platforms gap_result = [].
Proof.
  unfold generate_recommendations.
  destruct (experience_gap gap_result) as [gap|];
    [unfold falsy; destruct (Z.eqb_spec gap 0); destruct (Z.ltb_spec 0 gap);
     cbn [negb andb]|];
    destruct (experience_level_match gap_result);
    destruct (missing_required_skills gap_result);
    destruct (missing_languages gap_result);
    destruct (missing_frameworks gap_result);
    destruct (missing_databases gap_result);
    destruct (missing_cloud_platforms gap_result);
    cbn [negb app];
    (split; [intros Hrec; try discriminate Hrec; repeat split;
                    try reflexivity; lia
            | intros (R1 & R2 & R3 & R4 & R5 & R6 & R7);
              try discriminate; try reflexivity; lia]).
Qed.

Theorem generate_recommendations_at_most_seven gap_result :
  (List.length (generate_recommendations gap_result) <= 7)%nat.
Proof.
  unfold generate_recommendations. rewrite !length_app.
  destruct (experience_gap gap_result) as [gap|];
    [destruct (negb (falsy (Some gap)) && (0 <? gap)%Z)|];
    destruct (experience_level_match gap_result);
    destruct (missing_required_skills gap_result);
    destruct (missing_languages gap_result);
    destruct (missing_frameworks gap_result);
    destruct (missing_databases gap_result);
    destruct (missing_cloud_platforms gap_result);
    cbn [negb List.length]; lia.
Qed.

(** X8.  For every job, a resume experience of 0 years is treated like an
    unknown one, and both like 2 years. *)
Theorem experience_zero_counts_as_unknown job_requirements :
  calculate_experience_gap (Some 0%Z) job_requirements
  = calculate_experience_gap None job_requirements
  /\ calculate_experience_gap None job_requirements
     = calculate_experience_gap (Some 2%Z) job_requirements.
Proof. split; reflexivity. Qed.

Lemma level_rank_range level : (1 <= level_rank level <= 5)%Z.
Proof.
  unfold level_rank, level_hierarchy. cbn [find fst].
  repeat match goal with
         | |- context [String.eqb ?a level] =>
             destruct (String.eqb a level); [cbn [snd]; lia|]
         end.
  lia.
Qed.

Lemma lower_idempotent s : lower (lower s) = lower s.
Proof. apply lower_fixed, all_lowered_lower. Qed.

(** X9.  [check_experience_level_match] compares ranks: a level matches
    itself, of two levels one matches the other, matching is transitive,
    letter case is ignored, and a job level of rank 1 (entry, junior or any
    unknown word) is matched by every resume level. *)
Theorem experience_levels_preorder (l1 l2 l3 : string) :
  check_experience_level_match l1 l1 = true
  /\ (check_experience_level_match l1 l2 = true
      \/ check_experience_level_match l2 l1 = true)
  /\ (check_experience_level_match l1 l2 = true ->
      check_experience_level_match l2 l3 = true ->
      check_experience_level_match l1 l3 = true)
  /\ check_experience_level_match (lower l1) (lower l2)
     = check_experience_level_match l1 l2
  /\ (level_rank (lower l2) = 1%Z -> check_experience_level_match l1 l2 = true).
Proof.
  unfold check_experience_level_match. rewrite !lower_idempotent.
  pose proof (level_rank_range (lower l1)).
  split; [|split; [|split; [|split]]].
  - apply Z.leb_le. lia.
  - destruct (Z.leb_spec (level_rank (lower l2)) (level_rank (lower l1)));
      [left; reflexivity | right; apply Z.leb_le; lia].
  - rewrite !Z.leb_le. lia.
  - reflexivity.
  - intros E. rewrite E. apply Z.leb_le. lia.
Qed.

Lemma list_set_In x l : In x (list_set l) <-> In x l.
Proof.
  induction l as [|y l IH]; [reflexivity|].
  cbn [list_set]. split.
  - intros [H|H]; [left; exact H|].
    apply filter_In in H. right. apply IH, H.
  - intros [H|H]; [left; exact H|].
    destruct (String.eqb_spec y x) as [E|E]; [left; exact E|].
    right. apply filter_In. split; [apply IH, H|].
    apply negb_true_iff, String.eqb_neq, E.
Qed.

Lemma list_set_NoDup l : NoDup (list_set l).
Proof.
  induction l as [|y l IH]; [constructor|].
  cbn [list_set]. constructor.
  - intros H. apply filter_In in H. destruct H as [_ H].
    rewrite String.eqb_refl in H. discriminate.
  - apply NoDup_filter, IH.
Qed.

(** X10.  The skills [extract_skills_from_resume] returns are distinct,
    non-empty and have no whitespace at either end. *)
Theorem extract_skills_from_resume_clean resume_data :
  NoDup (extract_skills_from_resume resume_data)
  /\ forall skill, In skill (extract_skills_from_resume resume_data) ->
       skill <> "" /\ strip skill = skill.
Proof.
  unfold extract_skills_from_resume. split; [apply list_set_NoDup|].
  intros skill H. apply list_set_In, in_flat_map in H.
  destruct H as [v [_ H]]. destruct v as [s|]; [|contradiction].
  destruct (String.eqb_spec (strip s) ""); [contradiction|].
  destruct H as [<-|[]]. split; [assumption | apply strip_idempotent].
Qed.

Lemma tech_patterns_NoDup : NoDup tech_patterns.
Proof.
  unfold tech_patterns.
  repeat (constructor; [cbn [In]; intuition discriminate|]). constructor.
Qed.

(** X11.  [extract_technologies_from_text] returns distinct words of its
    fixed vocabulary: none for [None] or the empty text, and otherwise
    exactly the vocabulary words that occur in the lower-cased text. *)
Theorem extract_technologies_from_text_vocabulary (text : option string) :
  NoDup (extract_technologies_from_text text)
  /\ incl (extract_technologies_from_text text) tech_patterns
  /\ (text = None \/ text = Some "" -> extract_technologies_from_text text = [])
  /\ (forall t tech, text = Some t -> t <> "" ->
        (In tech (extract_technologies_from_text text)
         <-> In tech tech_patterns /\ contains tech (lower t) = true)).
Proof.
  destruct text as [[|c t]|]; cbn [extract_technologies_from_text].
  - split; [constructor|]. split; [intros x []|]. split; [reflexivity|].
    intros t tech Et Hne. injection Et as <-. congruence.
  - split; [apply NoDup_filter, tech_patterns_NoDup|].
    split; [intros x Hx; apply filter_In in Hx; apply Hx|].
    split; [intros [E|E]; discriminate E|].
    intros t0 tech Et _. injection Et as <-.
    apply (filter_In (fun tech0 => contains tech0 (lower (String c t)))
                     tech tech_patterns).
  - split; [constructor|]. split; [intros x []|]. split; [reflexivity|].
    intros t tech Et. discriminate Et.
Qed.

(** X12.  Whatever the input, the result of [normalize_skill] holds only
    word characters, spaces, plus signs, hash signs and dots; its only
    whitespace is single spaces, never two in a row; and it is in lower
    case. *)
Theorem normalize_skill_shape skill :
  all kept_char (normalize_skill skill) = true
  /\ single_spaced false (normalize_skill skill) = true
  /\ lower (normalize_skill skill) = normalize_skill skill.
Proof.
  pose proof (normal_form_normalize_skill skill) as H.
  unfold normal_form in H.
  apply andb_prop in H. destruct H as [H H3].
  apply andb_prop in H. destruct H as [H1 H2].
  repeat split; try assumption. apply lower_fixed, H2.
Qed.

(** X13.  The strings [normalize_skill] returns unchanged are exactly the
    strings in normal form with nothing to strip at either end. *)
Theorem normalize_skill_fixed_points s :
  normalize_skill s = s <-> normal_form s = true /\ strip s = s.
Proof.
  split.
  - intros E.
    assert (Hn : normal_form s = true)
      by (rewrite <- E; apply normal_form_normalize_skill).
    split; [exact Hn|].
    rewrite <- (normalize_skill_normal_form s Hn). exact E.
  - intros [Hn Hs]. rewrite (normalize_skill_normal_form s Hn). exact Hs.
Qed.

Lemma all_In_false p s c : all p s = true -> p c = false ->
  forall l r, s <> (l ++ String c r)%string.
Proof.
  intros Hall Hc l. revert s Hall.
  induction l as [|d l IH]; intros s Hall r E; subst s; cbn [append all] in Hall.
  - rewrite Hc in Hall. discriminate.
  - apply andb_prop in Hall. destruct Hall as [_ Hall].
    exact (IH _ Hall r eq_refl).
Qed.

(** X14.  No result of [normalize_skill] contains a slash; in particular none
    is the alias ci/cd of the synonym table, which the synonym test of
    [are_skills_similar] can therefore never find. *)
Theorem normalize_skill_never_keeps_slash skill :
  normalize_skill skill <> "ci/cd"
  /\ forall l r, normalize_skill skill <> (l ++ String "/" r)%string.
Proof.
  pose proof (normal_form_normalize_skill skill) as H.
  unfold normal_form in H.
  apply andb_prop in H. destruct H as [H _].
  apply andb_prop in H. destruct H as [H _].
  split.
  - apply (all_In_false kept_char _ "/"%char H eq_refl "ci" "cd").
  - apply (all_In_false kept_char _ "/"%char H eq_refl).
Qed.

(** X15.  Two skills are similar at every threshold, also above 1, when their
    normalized forms are equal, belong to the alias list of one entry of the
    synonym table, or contain one another. *)
Theorem similar_at_every_threshold a b t :
  normalize_skill a = normalize_skill b
  \/ (exists entry, In entry skill_synonyms
                    /\ In (normalize_skill a) (snd entry)
                    /\ In (normalize_skill b) (snd entry))
  \/ contains (normalize_skill a) (normalize_skill b) = true
  \/ contains (normalize_skill b) (normalize_skill a) = true ->
  are_skills_similar a b t = true.
Proof.
  intros H. unfold are_skills_similar.
  destruct (String.eqb_spec (normalize_skill a) (normalize_skill b)) as [|Hne];
    [reflexivity|].
  destruct (existsb _ skill_synonyms) eqn:Esyn; [reflexivity|].
  destruct (ratio_reaches _ _ t); [reflexivity|].
  destruct H as [H | [H | [H | H]]].
  - contradiction.
  - destruct H as [entry [Hin [Ha Hb]]].
    assert (Ht : existsb (fun entry : string * list string =>
                            mem (normalize_skill a) (snd entry)
                            && mem (normalize_skill b) (snd entry))
                         skill_synonyms = true).
    { apply existsb_exists. exists entry. split; [exact Hin|].
      apply andb_true_intro. split; apply mem_In; assumption. }
    rewrite Ht in Esyn. discriminate.
  - rewrite H. reflexivity.
  - rewrite H, orb_true_r. reflexivity.
Qed.

Lemma similar_at_every_threshold_witness :
  are_skills_similar "Express" "Express.js" (3 # 2) = true.
Proof.
  apply (similar_at_every_threshold "Express" "Express.js" (3 # 2)).
  right. right. left. vm_compute. reflexivity.
Defined.

(** X16.  Lowering the threshold never loses a match: skills similar at a
    threshold are similar at every smaller one. *)
Theorem similar_threshold_monotone a b (t t' : Q) :
  (t' <= t)%Q ->
  are_skills_similar a b t = true -> are_skills_similar a b t' = true.
Proof.
  intros Hle. unfold are_skills_similar.
  destruct (String.eqb _ _); [reflexivity|].
  destruct (existsb _ skill_synonyms); [reflexivity|].
  unfold ratio_reaches.
  destruct (Qle_bool t (Difflib.ratio_str _ _)) eqn:E.
  - intros _. apply Qle_bool_iff in E.
    assert (E' : Qle_bool t' (Difflib.ratio_str (normalize_skill a)
                                                (normalize_skill b)) = true).
    { apply Qle_bool_iff. eapply Qle_trans; eassumption. }
    rewrite E'. reflexivity.
  - intros H. destruct (Qle_bool t' _); [reflexivity | exact H].
Qed.

Lemma similar_threshold_monotone_witness :
  are_skills_similar "React" "ReactJS" (6 # 10) = true.
Proof.
  apply (similar_threshold_monotone "React" "ReactJS" default_threshold (6 # 10)).
  - vm_compute. discriminate.
  - vm_compute. reflexivity.
Defined.

Example cicd_has_no_synonym :
  are_skills_similar "CI/CD" "DevOps" default_threshold = false
  /\ are_skills_similar "CI/CD" "continuous integration" default_threshold = false.
Proof. split; vm_compute; reflexivity. Qed.

Lemma filter_split_perm {A} (p : A -> bool) (l : list A) :
  Permutation (filter p l ++ filter (fun x => negb (p x)) l) l.
Proof.
  induction l as [|x l IH]; [constructor|].
  cbn [filter]. destruct (p x); cbn [negb app].
  - constructor. exact IH.
  - apply Permutation_sym, Permutation_cons_app, Permutation_sym, IH.
Qed.

Lemma find_skill_matches_perm rs js :
  Permutation (fst (find_skill_matches rs js) ++ snd (find_skill_matches rs js))
              (List.map normalize_skill js).
Proof.
  unfold find_skill_matches. rewrite match_loop_filter. cbn [fst snd].
  apply filter_split_perm.
Qed.

(** X17.  [analyze_gap] accounts for every requirement once: in each
    category the matching and the missing list together are a rearrangement
    of the normalized requirements of that category ([matching_skills]
    holding the matches of required and preferred skills). *)
Theorem analyze_gap_accounts_for_every_requirement resume_data job_requirements :
  let res := analyze_gap resume_data job_requirements in
  let normalized := fun l => List.map normalize_skill (get_list l) in
  Permutation (matching_skills res ++ missing_required_skills res
               ++ missing_preferred_skills res)
              (normalized (required_skills job_requirements)
               ++ normalized (preferred_skills job_requirements))
  /\ Permutation (matching_languages res ++ missing_languages res)
                 (normalized (programming_languages job_requirements))
  /\ Permutation (matching_frameworks res ++ missing_frameworks res)
                 (normalized (frameworks job_requirements))
  /\ Permutation (matching_databases res ++ missing_databases res)
                 (normalized (databases job_requirements))
  /\ Permutation (matching_cloud_platforms res ++ missing_cloud_platforms res)
                 (normalized (cloud_platforms job_requirements)).
Proof.
  cbv zeta.
  destruct (analyze_gap_lists resume_data job_requirements)
    as (-> & -> & -> & -> & -> & -> & -> & -> & -> & -> & ->).
  repeat split; try apply find_skill_matches_perm.
  set (rs := extract_skills_from_resume resume_data).
  set (req := get_list (required_skills job_requirements)).
  set (pref := get_list (preferred_skills job_requirements)).
  pose proof (find_skill_matches_perm rs req) as Hr.
  pose proof (find_skill_matches_perm rs pref) as Hp.
  eapply Permutation_trans; [|apply Permutation_app; eassumption].
  rewrite <- !app_assoc. apply Permutation_app_head.
  rewrite !app_assoc. apply Permutation_app_tail. apply Permutation_app_comm.
Qed.

(** X18.  The sort of [calculate_priority_scores] never moves an entry: for
    every result the list is the entries in the order they were appended
    (required skills, languages, frameworks, databases, cloud platforms,
    preferred skills), and that list descends by score. *)
Theorem calculate_priority_scores_in_category_order gap_result :
  calculate_priority_scores gap_result = priority_entries gap_result
  /\ StronglySorted not_below (calculate_priority_scores gap_result).
Proof.
  rewrite calculate_priority_scores_keeps_order.
  split; [reflexivity | apply priority_entries_sorted].
Qed.

(** X19.  [generate_recommendations] returns at most seven sentences, and
    none exactly when there is no positive experience gap, the level
    matches, and no required skill, language, framework, database or cloud
    platform is missing (missing preferred skills alone give none). *)
Theorem generate_recommendations_summary gap_result :
  (List.length (generate_recommendations gap_result) <= 7)%nat
  /\ (generate_recommendations gap_result = []
      <-> match experience_gap gap_result with
          | Some gap => (gap <= 0)%Z
          | None => True
          end
          /\ experience_level_match gap_result = true
          /\ missing_required_skills gap_result = []
          /\ missing_languages gap_result = []
          /\ missing_frameworks gap_result = []
          /\ missing_databases gap_result = []
          /\ missing_cloud_platforms gap_result = []).
Proof.
  split; [apply generate_recommendations_at_most_seven
         | apply generate_recommendations_empty_iff].
Qed.

Lemma blank_skill_witness :
  are_skills_similar "!!!" "Kubernetes" default_threshold = true.
Proof.
  apply (blank_skill_is_similar_to_all "!!!" "Kubernetes" default_threshold).
  vm_compute. reflexivity.
Defined.

Lemma analyze_gap_nothing_required_witness :
  improvement_priority (analyze_gap sample_resume_data empty_requirements) = [].
Proof.
  apply (analyze_gap_nothing_required sample_resume_data empty_requirements).
  repeat constructor.
Defined.

Lemma analyze_gap_no_resume_skills_witness :
  missing_required_skills (analyze_gap empty_resume sample_job_requirements)
  = ["python"; "javascript"; "react"; "aws"].
Proof.
  destruct (analyze_gap_no_resume_skills empty_resume sample_job_requirements
              eq_refl) as (_ & _ & _ & _ & H & _).
  rewrite H. vm_compute. reflexivity.
Defined.

(** *** Substrings *)

Lemma prefix_app_l a b s : String.prefix (a ++ b)%string s = true -> String.prefix a s = true.
Proof.
  revert s. induction a as [|c a IH]; intros s; [destruct s; reflexivity|].
  destruct s as [|d s]; cbn [append String.prefix]; [discriminate|].
  destruct (ascii_dec c d); [apply IH | discriminate].
Qed.

Lemma contains_prefix x s : String.prefix x s = true -> contains x s = true.
Proof. intros H. destruct s; cbn [contains]; rewrite H; reflexivity. Qed.

Lemma contains_tail x c s : contains x s = true -> contains x (String c s) = true.
Proof. intros H. cbn [contains]. rewrite H. apply orb_true_r. Qed.

Lemma prefix_app_r a b s : String.prefix (a ++ b)%string s = true -> contains b s = true.
Proof.
  revert s. induction a as [|c a IH]; intros s.
  - apply contains_prefix.
  - destruct s as [|d s]; cbn [append String.prefix]; [discriminate|].
    destruct (ascii_dec c d); [|discriminate].
    intros H. apply contains_tail, IH, H.
Qed.

Lemma contains_app_l a b s : contains (a ++ b)%string s = true -> contains a s = true.
Proof.
  induction s as [|c s IH]; cbn [contains]; intros H;
    apply orb_prop in H; destruct H as [H|H].
  - rewrite (prefix_app_l _ _ _ H). reflexivity.
  - discriminate.
  - rewrite (prefix_app_l _ _ _ H). reflexivity.
  - rewrite (IH H). apply orb_true_r.
Qed.

Lemma contains_app_r a b s : contains (a ++ b)%string s = true -> contains b s = true.
Proof.
  induction s as [|c s IH]; cbn [contains]; intros H;
    apply orb_prop in H; destruct H as [H|H].
  - apply (prefix_app_r a b "" H).
  - discriminate.
  - apply (prefix_app_r a b (String c s) H).
  - apply contains_tail, IH, H.
Qed.


(* ------------------------------------------------------------------ *)
(** ** Further properties of the job analyzer *)

Module JobAnalyzerFacts.
Import JobAnalyzer.

Example confidence_runs :
  (get_confidence_score complete_requirements == 1)%Q
  /\ (get_confidence_score default_requirements == 0)%Q.
Proof. split; vm_compute; reflexivity. Qed.

(** X20.  [get_confidence_score] lies between 0 and 1. *)
Theorem confidence_between_zero_and_one requirements :
  (0 <= get_confidence_score requirements <= 1)%Q.
Proof.
  unfold get_confidence_score.
  destruct (nonempty (required_skills requirements));
    destruct (nonempty (programming_languages requirements));
    destruct (negb (String.eqb (experience_level requirements) "entry"));
    destruct (truthy_int (required_experience_years requirements));
    destruct (nonempty (technologies requirements));
    destruct (nonempty (frameworks requirements));
    destruct (nonempty (responsibilities requirements));
    destruct (nonempty (education_requirements requirements));
    destruct (truthy_str (work_location requirements));
    vm_compute; split; discriminate.
Qed.

Lemma confidence_without_llm_fields requirements :
  required_skills requirements = [] ->
  technologies requirements = [] ->
  responsibilities requirements = [] ->
  education_requirements requirements = [] ->
  (get_confidence_score requirements <= 5 # 10)%Q.
Proof.
  intros H1 H2 H3 H4. unfold get_confidence_score.
  rewrite H1, H2, H3, H4. cbn [nonempty add_if].
  destruct (nonempty (programming_languages requirements));
    destruct (negb (String.eqb (experience_level requirements) "entry"));
    destruct (truthy_int (required_experience_years requirements));
    destruct (nonempty (frameworks requirements));
    destruct (truthy_str (work_location requirements));
    vm_compute; discriminate.
Qed.

Ltac returned H text :=
  unfold extract_basic_requirements in H;
  destruct (first_years exp_patterns text) as [found|raised] eqn:Eyears;
  [apply Return_inj in H; subst | discriminate H].

(** X21.  The confidence of requirements returned by the rule-based path,
    validated or not, never exceeds 0.5: that path fills at most five of
    the ten points. *)
Theorem rule_based_confidence_at_most_half (job_description : string)
        (r : JobRequirements) :
  extract_basic_requirements job_description = Return r ->
  (get_confidence_score r <= 5 # 10)%Q
  /\ (get_confidence_score (validate_requirements r) <= 5 # 10)%Q.
Proof.
  intros H. returned H (lower job_description).
  split; apply confidence_without_llm_fields; reflexivity.
Qed.

Lemma rule_based_confidence_at_most_half_witness :
  (get_confidence_score
     (mkJobRequirements [] [] None "senior" [] ["Python"; "R"] [] [] [] []
                        [] [] [] None None (Some "remote") None) <= 5 # 10)%Q.
Proof.
  apply (rule_based_confidence_at_most_half "Senior Python developer, remote.").
  vm_compute. reflexivity.
Defined.

(** A title-cased name in an extracted list comes from a vocabulary word
    found in the text. *)
Lemma detected_word (f : string -> string) (p : string -> bool)
      (vocabulary : list string) (name : string) :
  In name (List.map f (filter p vocabulary)) <->
  exists word, In word vocabulary /\ f word = name /\ p word = true.
Proof.
  rewrite in_map_iff. split.
  - intros [w [Hf Hin]]. apply filter_In in Hin. exists w. tauto.
  - intros [w [Hin [Hf Hp]]]. exists w. split; [exact Hf|].
    apply filter_In. tauto.
Qed.

Ltac which_word H :=
  cbn [In] in H;
  repeat (destruct H as [H|H]; [subst; try discriminate|]);
  try contradiction.

(** X22.  Vocabulary words are searched as substrings, so a description in
    which Javascript is found also lists Java, one with React lists the
    language R, and one with Postgresql lists Sql. *)
Theorem substring_overmatch (job_description : string) (r : JobRequirements) :
  extract_basic_requirements job_description = Return r ->
  (In "Javascript" (programming_languages r) -> In "Java" (programming_languages r))
  /\ (In "React" (frameworks r) -> In "R" (programming_languages r))
  /\ (In "Postgresql" (databases r) -> In "Sql" (programming_languages r)).
Proof.
  intros Hr. returned Hr (lower job_description).
  cbn [programming_languages frameworks databases default_requirements app].
  set (text := lower job_description).
  split; [|split]; intros H; apply detected_word in H;
    destruct H as [word [Hin [Htitle Hfound]]].
  - apply detected_word. exists "java".
    split; [cbn; tauto|]. split; [reflexivity|].
    unfold prog_languages in Hin. which_word Hin.
    all: try (vm_compute in Htitle; discriminate).
    apply (contains_app_l "java" "script"), Hfound.
  - apply detected_word. exists "r".
    split; [cbn; tauto|]. split; [reflexivity|].
    unfold framework_names in Hin. which_word Hin.
    all: try (vm_compute in Htitle; discriminate).
    cbn [replace replace_from String.prefix] in Hfound.
    rewrite orb_diag in Hfound.
    apply (contains_app_l "r" "eact"), Hfound.
  - apply detected_word. exists "sql".
    split; [cbn; tauto|]. split; [reflexivity|].
    unfold database_names in Hin. which_word Hin.
    all: try (vm_compute in Htitle; discriminate).
    apply (contains_app_r "postgre" "sql"), Hfound.
Qed.

Lemma substring_overmatch_witness : In "Java" ["Javascript"; "Java"; "R"].
Proof.
  refine (proj1 (substring_overmatch
                   "javascript"
                   (mkJobRequirements [] [] None "entry" []
                                      ["Javascript"; "Java"; "R"]
                                      [] [] [] [] [] [] [] None None None None) _) _).
  - vm_compute. reflexivity.
  - left. reflexivity.
Defined.

Lemma int_from_nonneg s : forall acc, (0 <= acc)%Z -> (0 <= int_from acc s)%Z.
Proof.
  induction s as [|c s IH]; intros acc Hacc; cbn [int_from]; [exact Hacc|].
  apply IH. unfold digit_value. lia.
Qed.

Lemma first_years_nonneg patterns text n :
  first_years patterns text = Return (Some n) -> (0 <= n)%Z.
Proof.
  induction patterns as [|pattern rest IH]; cbn [first_years]; [discriminate|].
  destruct (Re.search_group pattern text) as [group1|]; [|exact IH].
  unfold int. destruct (int_max_str_digits <? String.length group1)%nat;
    [discriminate|].
  intros H. injection H as <-. apply int_from_nonneg. lia.
Qed.

Lemma NoDup_map_filter {A B} (f : A -> B) (p : A -> bool) (l : list A) :
  NoDup (List.map f l) -> NoDup (List.map f (filter p l)).
Proof.
  induction l as [|x l IH]; cbn [List.map filter]; intros H; [constructor|].
  inversion H as [|? ? Hx Hl]; subst.
  destruct (p x); [|apply IH, Hl].
  cbn [List.map]. constructor; [|apply IH, Hl].
  intros Hin. apply Hx. apply in_map_iff in Hin.
  destruct Hin as [y [E Hy]]. apply filter_In in Hy.
  apply in_map_iff. exists y. tauto.
Qed.

Lemma incl_map_filter {A B} (f : A -> B) (p : A -> bool) (l : list A) :
  incl (List.map f (filter p l)) (List.map f l).
Proof.
  intros y Hy. apply in_map_iff in Hy. destruct Hy as [x [E Hx]].
  apply filter_In in Hx. apply in_map_iff. exists x. tauto.
Qed.

Ltac distinct_strings :=
  repeat (constructor; [cbn [In]; intuition discriminate|]); constructor.

(** X23.  The rule-based extractor returns a level among senior, mid and
    entry, a work location among none, remote, hybrid and onsite, a number
    of years that is not negative, and lists of distinct names taken from
    the title-cased vocabulary of their category. *)
Theorem extract_basic_requirements_ranges (job_description : string)
        (r : JobRequirements) :
  extract_basic_requirements job_description = Return r ->
  In (experience_level r) ["senior"; "mid"; "entry"]
  /\ In (work_location r) [None; Some "remote"; Some "hybrid"; Some "onsite"]
  /\ (forall n, required_experience_years r = Some n -> (0 <= n)%Z)
  /\ (incl (programming_languages r) (List.map title prog_languages)
      /\ NoDup (programming_languages r))
  /\ (incl (frameworks r) (List.map title framework_names)
      /\ NoDup (frameworks r))
  /\ (incl (databases r) (List.map title database_names)
      /\ NoDup (databases r))
  /\ (incl (cloud_platforms r) (List.map cloud_platform_label cloud_platform_names)
      /\ NoDup (cloud_platforms r))
  /\ (incl (tools r) (List.map title tool_names) /\ NoDup (tools r)).
Proof.
  intros Hr. returned Hr (lower job_description).
  cbn [experience_level work_location required_experience_years
       programming_languages frameworks databases cloud_platforms tools
       default_requirements app].
  set (text := lower job_description) in *.
  split; [|split; [|split; [|split; [|split; [|split; [|split]]]]]].
  - destruct (any_in _ text); [cbn; tauto|].
    destruct (any_in _ text); [cbn; tauto|].
    destruct (any_in _ text); cbn; tauto.
  - destruct (any_in _ text); [cbn; tauto|].
    destruct (any_in _ text); [cbn; tauto|].
    destruct (any_in _ text); cbn; tauto.
  - intros n. destruct found as [m|]; [|discriminate].
    intros H. injection H as <-. exact (first_years_nonneg _ _ _ Eyears).
  - split; [apply incl_map_filter|].
    apply NoDup_map_filter. vm_compute. distinct_strings.
  - split; [apply incl_map_filter|].
    apply NoDup_map_filter. vm_compute. distinct_strings.
  - split; [apply incl_map_filter|].
    apply NoDup_map_filter. vm_compute. distinct_strings.
  - split; [apply (incl_map_filter cloud_platform_label)|].
    apply (NoDup_map_filter cloud_platform_label). vm_compute. distinct_strings.
  - split; [apply incl_map_filter|].
    apply NoDup_map_filter. vm_compute. distinct_strings.
Qed.

Lemma extract_basic_requirements_ranges_witness :
  In "senior" ["senior"; "mid"; "entry"]
  /\ In (Some "remote") [None; Some "remote"; Some "hybrid"; Some "onsite"].
Proof.
  pose proof (extract_basic_requirements_ranges
                "Senior Python developer, remote."
                (mkJobRequirements [] [] None "senior" [] ["Python"; "R"] [] []
                                   [] [] [] [] [] None None (Some "remote") None))
    as H.
  split; apply H; vm_compute; reflexivity.
Defined.

(** X24.  After [validate_requirements] the level is one of entry, mid,
    senior and executive (unchanged when it already was), the years are
    absent or not negative, and each of the eight cleaned lists has the
    same members as before, without duplicates. *)
Theorem validate_requirements_postconditions (requirements : JobRequirements) :
  let v := validate_requirements requirements in
  In (experience_level v) ["entry"; "mid"; "senior"; "executive"]
  /\ (forall n, required_experience_years v = Some n -> (0 <= n)%Z)
  /\ (In (experience_level requirements) ["entry"; "mid"; "senior"; "executive"] ->
      experience_level v = experience_level requirements)
  /\ Forall (fun lists : list string * list string =>
               NoDup (snd lists)
               /\ forall x, In x (snd lists) <-> In x (fst lists))
            [ (required_skills requirements, required_skills v);
              (preferred_skills requirements, preferred_skills v);
              (technologies requirements, technologies v);
              (programming_languages requirements, programming_languages v);
              (frameworks requirements, frameworks v);
              (databases requirements, databases v);
              (cloud_platforms requirements, cloud_platforms v);
              (tools requirements, tools v) ].
Proof.
  cbv zeta. unfold validate_requirements.
  cbn [experience_level required_experience_years required_skills
       preferred_skills technologies programming_languages frameworks
       databases cloud_platforms tools].
  split; [|split; [|split]].
  - destruct (mem (experience_level requirements) _) eqn:E.
    + apply mem_In in E. exact E.
    + cbn. tauto.
  - intros n. destruct (required_experience_years requirements) as [m|];
      [|discriminate].
    destruct (Z.eqb_spec m 0); destruct (Z.ltb_spec m 0); cbn [negb andb];
      intros Hv; try discriminate; injection Hv as <-; lia.
  - intros H. apply mem_In in H. rewrite H. reflexivity.
  - repeat (constructor;
            [cbn [fst snd]; split;
             [apply list_set_NoDup | intros x; apply list_set_In]|]).
    constructor.
Qed.

Section Fallback.
Variables openai_enabled gemini_enabled : bool.
Variables openai_request gemini_request : string -> result JobRequirements.

(** X25.  On a description that is not blank, the failure of a provider
    never leaves [analyze_job_description]: an answer of the first provider
    is returned validated, then one of the second; with the second provider
    off and the first off or failing, the outcome is that of the rule-based
    extraction of the cleaned text, validated when it returns.  The function
    raises only when that extraction raises, with its exception; it returns
    whenever that extraction returns, and so on every description of at most
    4300 characters. *)
Theorem analyze_job_description_fallback (job_description : string) :
  strip job_description <> "" ->
  let cleaned := clean_job_description job_description in
  let analyzed :=
    analyze_job_description openai_enabled gemini_enabled openai_request
                            gemini_request job_description in
  (forall r, openai_enabled = true -> openai_request cleaned = Return r ->
        analyzed = Return (validate_requirements r))
  /\ (forall r e, openai_enabled = true -> openai_request cleaned = Raise e ->
        gemini_enabled = true -> gemini_request cleaned = Return r ->
        analyzed = Return (validate_requirements r))
  /\ (forall r, openai_enabled = false ->
        gemini_enabled = true -> gemini_request cleaned = Return r ->
        analyzed = Return (validate_requirements r))
  /\ (gemini_enabled = false ->
      (openai_enabled = false \/ exists e, openai_request cleaned = Raise e) ->
      analyzed = match extract_basic_requirements cleaned with
                 | Return r => Return (validate_requirements r)
                 | Raise e => Raise e
                 end)
  /\ (forall rule_based, extract_basic_requirements cleaned = Return rule_based ->
        exists r, analyzed = Return (validate_requirements r)
                  /\ (r = rule_based
                      \/ (openai_enabled = true /\ openai_request cleaned = Return r)
                      \/ (gemini_enabled = true /\ gemini_request cleaned = Return r)))
  /\ (forall e, analyzed = Raise e -> extract_basic_requirements cleaned = Raise e)
  /\ ((String.length job_description <= int_max_str_digits)%nat ->
      exists r, analyzed = Return (validate_requirements r)).
Proof.
  intros Hne. cbv zeta. unfold analyze_job_description.
  assert (E1 : String.eqb job_description "" = false).
  { apply String.eqb_neq. intros ->. apply Hne. reflexivity. }
  assert (E2 : String.eqb (strip job_description) "" = false)
    by (apply String.eqb_neq, Hne).
  rewrite E1, E2. cbn [orb].
  unfold analyze_with_openai, analyze_with_gemini.
  assert (Hshort : (String.length job_description <= int_max_str_digits)%nat ->
                   exists r, extract_basic_requirements
                               (clean_job_description job_description) = Return r).
  { intros H. apply extract_basic_requirements_returns.
    eapply Nat.le_trans; [apply length_clean_job_description | exact H]. }
  set (cleaned := clean_job_description job_description) in *.
  destruct (extract_basic_requirements cleaned) as [rule_based|raised].
  - split; [|split; [|split; [|split; [|split; [|split]]]]].
    + intros r -> ->. reflexivity.
    + intros r e -> -> -> ->. reflexivity.
    + intros r -> -> ->. reflexivity.
    + intros -> [-> | [e Ee]]; cbn [negb]; [reflexivity|].
      rewrite Ee. destruct openai_enabled; reflexivity.
    + intros r' Hr'. apply Return_inj in Hr'. subst r'.
      destruct openai_enabled, gemini_enabled; cbn [negb];
        destruct (openai_request cleaned) as [ro|eo];
        destruct (gemini_request cleaned) as [rg|eg];
        eexists; (split; [reflexivity|]); tauto.
    + intros e. destruct openai_enabled, gemini_enabled; cbn [negb];
        destruct (openai_request cleaned) as [ro|eo];
        destruct (gemini_request cleaned) as [rg|eg]; discriminate.
    + intros _. destruct openai_enabled, gemini_enabled; cbn [negb];
        destruct (openai_request cleaned) as [ro|eo];
        destruct (gemini_request cleaned) as [rg|eg];
        eexists; reflexivity.
  - split; [|split; [|split; [|split; [|split; [|split]]]]].
    + intros r -> ->. reflexivity.
    + intros r e -> -> -> ->. reflexivity.
    + intros r -> -> ->. reflexivity.
    + intros -> [-> | [e Ee]]; cbn [negb]; [reflexivity|].
      rewrite Ee. destruct openai_enabled; reflexivity.
    + discriminate.
    + intros e. destruct openai_enabled, gemini_enabled; cbn [negb];
        destruct (openai_request cleaned) as [ro|eo];
        destruct (gemini_request cleaned) as [rg|eg];
        intros H; try discriminate H; exact H.
    + intros H. destruct (Hshort H) as [r Hr]. discriminate Hr.
Qed.
End Fallback.

Lemma analyze_job_description_fallback_witness :
  analyze_job_description true false
    (fun _ => Return complete_requirements) (fun _ => Raise (OtherError "unused"))
    "Senior Python developer, remote. Apply now!"
  = Return (validate_requirements complete_requirements)
  /\ exists r,
      analyze_job_description false false
        (fun _ => Raise (OtherError "unused")) (fun _ => Raise (OtherError "unused"))
        "Senior Python developer, remote. Apply now!"
      = Return (validate_requirements r).
Proof.
  split.
  - refine (proj1 (analyze_job_description_fallback true false
                     (fun _ => Return complete_requirements)
                     (fun _ => Raise (OtherError "unused"))
                     "Senior Python developer, remote. Apply now!" _)
                  complete_requirements eq_refl eq_refl).
    vm_compute. discriminate.
  - destruct (analyze_job_description_fallback false false
                (fun _ => Raise (OtherError "unused"))
                (fun _ => Raise (OtherError "unused"))
                "Senior Python developer, remote. Apply now!")
      as (_ & _ & _ & _ & _ & _ & H).
    + vm_compute. discriminate.
    + apply H. apply Nat.leb_le. vm_compute. reflexivity.
Defined.
End JobAnalyzerFacts.
